(** * uavs_analysis: the predictive-model framework and its evaluator

    A shallow embedding of
      - [scripts/models/abc_predictive_model.py] (class [APredictiveModel]),
      - [scripts/models/base_line_model.py] and [scripts/models/final_model.py],
      - [scripts/tools/tests_maker.py] ([TestsMaker._model_evaluation]) and
        [scripts/tools/battery.py] ([joules2SoC]).

    Numbers are IEEE-754 binary64, as NumPy's [float64]: Rocq's primitive
    floats.  A pandas [DataFrame] is an index of integer labels with an
    ordered list of named columns; Python exceptions are values of [exn]. *)

From Stdlib Require Import String List ZArith Bool Arith Lia.
From Stdlib Require Import Floats Uint63.
Import ListNotations.

Set Warnings "-inexact-float".
Local Open Scope list_scope.

(** ** Exceptions and results *)

Inductive exn : Type :=
| KeyError (label : string)
| ValueError (msg : string)
| IndexError (msg : string)
| RuntimeError (msg : string)
| LinAlgError (msg : string)
| TypeError (msg : string)
| SystemExit (code : Z).

Inductive result (A : Type) : Type :=
| Ok (a : A)
| Raise (e : exn).

Arguments Ok {A} a.
Arguments Raise {A} e.

Definition bind {A B : Type} (r : result A) (k : A -> result B) : result B :=
  match r with
  | Ok a => k a
  | Raise e => Raise e
  end.

Declare Scope result_scope.
Delimit Scope result_scope with result.
Notation "'do' x <- r ; k" := (bind r (fun x => k))
  (at level 10, x name, r at level 100, k at level 200) : result_scope.
Local Open Scope result_scope.

Definition is_ok {A : Type} (r : result A) : bool :=
  match r with Ok _ => true | Raise _ => false end.

(** [mapM f l]: a Python loop that calls [f] on each element in turn and
    stops at the first exception. *)
Fixpoint mapM {A B : Type} (f : A -> result B) (l : list A) : result (list B) :=
  match l with
  | [] => Ok []
  | x :: t => do y <- f x ; do ys <- mapM f t ; Ok (y :: ys)
  end.

(** ** binary64 kernels of NumPy and pandas *)

Module Num.
Local Open Scope float_scope.

Definition float_of_nat (n : nat) : float :=
  PrimFloat.of_uint63 (Uint63.of_Z (Z.of_nat n)).

Definition square (x : float) : float := x * x.

Definition map2 {A B C : Type} (f : A -> B -> C) : list A -> list B -> list C :=
  fix go (l : list A) (r : list B) : list C :=
    match l, r with
    | x :: l', y :: r' => f x y :: go l' r'
    | _, _ => []
    end.

(** [numpy.sum] of a one-dimensional [float64] array is [add.reduce],
    whose inner loop is NumPy's pairwise summation
    ([pairwise_sum] in [loops_utils.h.src]); the order
    of the additions, which rounding makes visible, depends on the length.

    Fewer than eight elements are added from left to right; the empty sum
    is [0]. *)
Definition sum_from (acc : float) (a : list float) : float :=
  fold_left PrimFloat.add a acc.

Definition sum_small (a : list float) : float :=
  match a with
  | [] => 0
  | x :: t => sum_from x t
  end.

(** The unrolled loop: eight accumulators [r], each taking one element of
    every block of eight. *)
Fixpoint add_blocks (r a : list float) (blocks : nat) : list float * list float :=
  match blocks with
  | O => (r, a)
  | S b => add_blocks (map2 PrimFloat.add r (firstn 8 a)) (skipn 8 a) b
  end.

(** From 8 to 128 elements: the accumulators start as the first eight
    elements and take the whole blocks of eight that follow; they are then
    added in pairs, and the elements left over (fewer than eight) are added
    to that sum one by one. *)
Definition sum_block (a : list float) : float :=
  let '(r, rest) := add_blocks (firstn 8 a) (skipn 8 a) (length a / 8 - 1) in
  match r with
  | [r0; r1; r2; r3; r4; r5; r6; r7] =>
      sum_from (((r0 + r1) + (r2 + r3)) + ((r4 + r5) + (r6 + r7))) rest
  | _ => sum_small a
  end.

(** Above 128 elements the array is cut in two, the first part of
    [n / 2] elements rounded down to a multiple of eight, and the sums of
    the two parts are added.  Each part is shorter than the array, so a
    fuel of the length of the array is never used up
    ([pairwise_sum_fuel]). *)
Fixpoint pairwise_sum (fuel : nat) (a : list float) : float :=
  let n := length a in
  if (n <? 8)%nat then sum_small a
  else if (n <=? 128)%nat then sum_block a
  else match fuel with
       | O => sum_block a
       | S fuel' =>
           let n2 := (n / 2 - (n / 2) mod 8)%nat in
           pairwise_sum fuel' (firstn n2 a) + pairwise_sum fuel' (skipn n2 a)
       end.

(** [numpy.sum] of a one-dimensional array (up to the sign of a zero
    sum). *)
Definition np_sum (a : list float) : float := pairwise_sum (length a) a.

(** [numpy.mean] of an array: the sum over the number of elements, [nan]
    for the empty array. *)
Definition np_mean (a : list float) : float :=
  np_sum a / float_of_nat (length a).

Fixpoint cumsum_from (acc : float) (a : list float) : list float :=
  match a with
  | [] => []
  | x :: t => let s := acc + x in s :: cumsum_from s t
  end.

(** [ndarray.cumsum]. *)
Definition np_cumsum (a : list float) : list float :=
  match a with
  | [] => []
  | x :: t => x :: cumsum_from x t
  end.

Definition fillna0 (x : float) : float := if is_nan x then 0 else x.

Definition count_notna (a : list float) : nat :=
  length (filter (fun x => negb (is_nan x)) a).

(** [pandas.core.nanops.nansum] with [skipna=True]: missing entries count
    as [0]. *)
Definition nansum (a : list float) : float := np_sum (map fillna0 a).

(** [pandas.core.nanops.nanmean] with [skipna=True], the body of
    [Series.mean()]: missing entries are replaced by [0] in the sum and
    left out of the count; with nothing to count the mean is [nan]. *)
Definition nanmean (a : list float) : float :=
  let count := count_notna a in
  if (0 <? count)%nat then nansum a / float_of_nat count else nan.

(** [Series.diff()]: the first entry has no predecessor. *)
Fixpoint diff_from (prev : float) (a : list float) : list float :=
  match a with
  | [] => []
  | x :: t => (x - prev) :: diff_from x t
  end.

Definition diff (a : list float) : list float :=
  match a with
  | [] => []
  | x :: t => nan :: diff_from x t
  end.

(** Boolean-mask selection [a[mask]], positions paired from the left. *)
Fixpoint select {A : Type} (mask : list bool) (a : list A) : list A :=
  match mask, a with
  | b :: m, x :: t => if b then x :: select m t else select m t
  | _, _ => []
  end.

End Num.
Import Num.

(** ** Cells, rows and frames *)

(** A cell holds a Python [bool] (the [is_moving] flag as the flight files
    store it) or a [float64]; integer telemetry (the mass in grams) is held
    as the float NumPy converts it to in arithmetic. *)
Inductive value : Type :=
| VBool (b : bool)
| VFloat (x : float).

Definition to_float (v : value) : float :=
  match v with
  | VBool true => 1%float
  | VBool false => 0%float
  | VFloat x => x
  end.

Definition isna (v : value) : bool :=
  match v with
  | VBool _ => false
  | VFloat x => is_nan x
  end.

(** Python's [v == True] and [v == False]: [bool] is a numeric type, so
    [1.0 == True] and [0.0 == False] hold, and [nan] equals neither. *)
Definition eq_bool (b : bool) (v : value) : bool :=
  PrimFloat.eqb (to_float v) (to_float (VBool b)).

(** One record of a frame: its cells by column name. *)
Definition row : Type := list (string * value).

Fixpoint lookup (c : string) (r : row) : option value :=
  match r with
  | [] => None
  | (c', v) :: t => if String.eqb c c' then Some v else lookup c t
  end.

Fixpoint assign (c : string) (v : value) (r : row) : row :=
  match r with
  | [] => [(c, v)]
  | (c', v') :: t =>
      if String.eqb c c' then (c', v) :: t else (c', v') :: assign c v t
  end.

(** The cell of column [c]; a record without it reads as missing. *)
Definition cell (c : string) (r : row) : value :=
  match lookup c r with
  | Some v => v
  | None => VFloat nan
  end.

(** [pandas.DataFrame]: the column labels in order, and the records, each
    with its index label.  Every column is of dtype [float64] or [bool],
    also in a frame without records; a column of dtype [object] (what
    [read_csv] makes of the columns of a file that holds a header line and
    nothing else) has no counterpart here. *)
Record DataFrame : Type := {
  columns : list string;
  records : list (Z * row)
}.

Definition index (df : DataFrame) : list Z := map fst (records df).
Definition nrows (df : DataFrame) : nat := length (records df).
Definition has_column (c : string) (df : DataFrame) : bool :=
  existsb (String.eqb c) (columns df).

(** [df[c]]. *)
Definition getitem (c : string) (df : DataFrame) : result (list value) :=
  if has_column c df
  then Ok (map (fun r => cell c (snd r)) (records df))
  else Raise (KeyError c).

(** [df[c]] read as numbers. *)
Definition floats (c : string) (df : DataFrame) : result (list float) :=
  do vs <- getitem c df ; Ok (map to_float vs).

(** The cells of [df[c] = s]: the value of each record is stored under
    [c]; a record [s] has no value for is set to missing. *)
Fixpoint set_cells (c : string) (s : list float) (rs : list (Z * row))
  : list (Z * row) :=
  match rs with
  | [] => []
  | (l, r) :: t =>
      (l, assign c (VFloat (hd nan s)) r) :: set_cells c (tl s) t
  end.

(** [df[c] = s], in place: an existing column is overwritten where it
    stands, a new one is added after the others. *)
Definition setitem (c : string) (s : list float) (df : DataFrame) : DataFrame :=
  {| columns := if has_column c df then columns df else columns df ++ [c];
     records := set_cells c s (records df) |}.

(** [df[mask]] for a boolean mask. *)
Definition take (mask : list bool) (df : DataFrame) : DataFrame :=
  {| columns := columns df; records := select mask (records df) |}.

(** [df.dropna()]: the records with a missing cell in any column go. *)
Definition has_na (cols : list string) (r : Z * row) : bool :=
  existsb (fun c => isna (cell c (snd r))) cols.

Definition dropna (df : DataFrame) : DataFrame :=
  {| columns := columns df;
     records := filter (fun r => negb (has_na (columns df) r)) (records df) |}.

Fixpoint relabel (from : Z) (rs : list (Z * row)) : list (Z * row) :=
  match rs with
  | [] => []
  | (_, r) :: t => (from, r) :: relabel (from + 1) t
  end.

(** [df.reset_index(drop=True)]: labels [0 .. n-1]. *)
Definition reset_index (df : DataFrame) : DataFrame :=
  {| columns := columns df; records := relabel 0 (records df) |}.

(** [df.loc[label] = [x] * len(df.columns)] for a label the index does not
    hold: pandas enlarges the frame by one record, placed after the
    existing ones. *)
Definition loc_enlarge (label : Z) (x : float) (df : DataFrame) : DataFrame :=
  {| columns := columns df;
     records := records df ++ [(label, map (fun c => (c, VFloat x)) (columns df))] |}.

(** [df.index += k]. *)
Definition index_add (k : Z) (df : DataFrame) : DataFrame :=
  {| columns := columns df;
     records := map (fun r => ((fst r + k)%Z, snd r)) (records df) |}.

(** [pandas.concat(objs, ignore_index=True)]: the columns are the union in
    order of first appearance, a frame without a column contributes missing
    cells, the records follow each other in the order of [objs] and are
    relabelled; an empty list of frames is a [ValueError]. *)
Definition add_names (acc : list string) (cs : list string) : list string :=
  fold_left (fun a c => if existsb (String.eqb c) a then a else a ++ [c]) cs acc.

Definition union_names (objs : list DataFrame) : list string :=
  fold_left (fun a df => add_names a (columns df)) objs [].

Definition reindex (cols : list string) (r : row) : row :=
  map (fun c => (c, cell c r)) cols.

Definition concat (objs : list DataFrame) : result DataFrame :=
  match objs with
  | [] => Raise (ValueError "No objects to concatenate")
  | _ :: _ =>
      let cols := union_names objs in
      Ok {| columns := cols;
            records := relabel 0 (map (fun r => (fst r, reindex cols (snd r)))
                                      (flat_map records objs)) |}
  end.

(** [pandas.Series] of numbers. *)
Record Series : Type := {
  s_index : list Z;
  s_values : list float
}.

(** [df[cs].values] for a list of labels: the matrix of the selected
    columns, one row per record; a missing label is a [KeyError]. *)
Definition getitems (cs : list string) (df : DataFrame) : result (list (list float)) :=
  match find (fun c => negb (has_column c df)) cs with
  | Some c => Raise (KeyError c)
  | None => Ok (map (fun r => map (fun c => to_float (cell c (snd r))) cs) (records df))
  end.

(** [a[i]] on a NumPy vector. *)
Definition item (i : nat) (a : list float) : result float :=
  match nth_error a i with
  | Some x => Ok x
  | None => Raise (IndexError "index is out of bounds")
  end.

(** [power[mask] = x]. *)
Definition masked_set (mask : list bool) (x : float) (power : list float) : list float :=
  map2 (fun (m : bool) p => if m then x else p) mask power.

(** [power[mask] += s[mask]]. *)
Fixpoint masked_iadd (mask : list bool) (power s : list float) : list float :=
  match mask, power, s with
  | m :: mask', p :: power', x :: s' =>
      (if m then (p + x)%float else p) :: masked_iadd mask' power' s'
  | _, _, _ => []
  end.

(** A [for] loop over [enumerate(l)] threading an accumulator, stopped by
    the first exception. *)
Fixpoint for_enumerate {A B : Type} (body : B -> nat -> A -> result B)
    (i : nat) (l : list A) (acc : B) : result B :=
  match l with
  | [] => Ok acc
  | x :: t => do acc' <- body acc i x ; for_enumerate body (S i) t acc'
  end.

(** ** The abstract model: [APredictiveModel] *)

(** The instance attributes [_beta] and [_default_usage]. *)
Record Model : Type := {
  _beta : option (list float);
  _default_usage : option float
}.

(** [APredictiveModel.__init__]. *)
Definition __init__ : Model := {| _beta := None; _default_usage := None |}.

(** The methods a subclass may override.  [spec_model_calc] works on the
    caller's frame object: it yields the frame as the caller sees it
    afterwards, and the frame it returns (or the exception it raises).  The
    two power transforms act element by element. *)
Record APredictiveModel : Type := {
  predictors_list : list string;
  spec_model_calc : DataFrame -> DataFrame * result DataFrame;
  transform_power : float -> float;
  retransform_power : float -> float
}.

(** The property [beta]. *)
Definition beta (self : Model) : result (list float) :=
  match _beta self with
  | None => Raise (RuntimeError "Beta is not initialized. Train model first.")
  | Some b => Ok b
  end.

(** The property [default_usage]. *)
Definition default_usage (self : Model) : result float :=
  match _default_usage self with
  | None => Raise (RuntimeError "Default usage is not initialized. Train model first.")
  | Some d => Ok d
  end.

(** [pd.Series(self._default_usage, index=df.index)]: [None] gives a series
    of missing values. *)
Definition full (d : option float) (n : nat) : list float :=
  repeat (match d with Some x => x | None => nan end) n.

Section Orchestration.

(** The LAPACK driver behind [numpy.linalg.lstsq] for a system with at
    least one equation: the minimum-norm least-squares solution, or
    [LinAlgError] when the decomposition does not converge. *)
Variable gelsd : list (list float) -> list float -> result (list float).

(** [numpy.linalg.lstsq(X, y, rcond=None)[0]] for an [m] by [n] matrix:
    for [m = 0] NumPy returns the zero vector of length [n]. *)
Definition lstsq (n : nat) (X : list (list float)) (y : list float)
  : result (list float) :=
  if negb (length X =? length y)%nat then Raise (LinAlgError "Incompatible dimensions")
  else match X with
       | [] => Ok (repeat 0%float n)
       | _ :: _ => gelsd X y
       end.

Variable cls : APredictiveModel.

(** The moving and the stationary part of the merged frame. *)
Definition phase (b : bool) (dfs : DataFrame) : result DataFrame :=
  do m <- getitem "is_moving" dfs ; Ok (take (map (eq_bool b) m) dfs).

(** [train], up to the least-squares fit: the merged frame with its power
    indicator, the coefficient vector, and the stationary part. *)
Definition fit (dfs : DataFrame) : result (list float * DataFrame) :=
  do voltage <- floats "voltage" dfs ;
  do current <- floats "current" dfs ;
  let dfs := setitem "power_indicator"
               (map (transform_power cls) (map2 PrimFloat.mul voltage current)) dfs in
  do df1 <- phase true dfs ;
  do df2 <- phase false dfs ;
  do X <- getitems (predictors_list cls) df1 ;
  do y <- floats "power_indicator" df1 ;
  let X := map (cons 1%float) X in
  do b <- lstsq (S (length (predictors_list cls))) X y ;
  Ok (b, df2).

(** [APredictiveModel.train]: the model afterwards, and [Ok tt] or the
    exception raised.  [exit(-1)] is [SystemExit (-1)].  The frames of
    [dfs_list] are separate objects ([create_dataframes_list] reads one
    file per flight), so what [spec_model_calc] does to one of them is not
    seen through another. *)
Definition train (dfs_list : list DataFrame) (self : Model) : Model * result unit :=
  match mapM (fun df => snd (spec_model_calc cls df)) dfs_list with
  | Raise e => (self, Raise e)
  | Ok transformed_dfs_list =>
      match concat transformed_dfs_list with
      | Raise (ValueError _) => (self, Raise (SystemExit (-1)))
      | Raise e => (self, Raise e)
      | Ok dfs =>
          match fit dfs with
          | Raise e => (self, Raise e)
          | Ok (b, df2) =>
              let self := {| _beta := Some b; _default_usage := _default_usage self |} in
              match floats "power_indicator" df2 with
              | Raise e => (self, Raise e)
              | Ok p => ({| _beta := _beta self; _default_usage := Some (nanmean p) |}, Ok tt)
              end
          end
      end
  end.

(** One turn of the loop of [forecast]:
    [power[mask] += df.loc[mask, predictor] * self.beta[i + 1]]. *)
Definition add_predictor (self : Model) (df : DataFrame) (mask : list bool)
    (power : list float) (i : nat) (predictor : string) : result (list float) :=
  do x <- floats predictor df ;
  do b <- beta self ;
  do bi <- item (i + 1) b ;
  Ok (masked_iadd mask power (map (fun v => (v * bi)%float) x)).

(** [APredictiveModel.forecast]: the model and the caller's frame
    afterwards, and the series returned or the exception raised. *)
Definition forecast (df : DataFrame) (self : Model)
  : Model * DataFrame * result Series :=
  let (df_caller, r) := spec_model_calc cls df in
  (self, df_caller,
   do df <- r ;
   let power := full (_default_usage self) (nrows df) in
   do m <- getitem "is_moving" df ;
   let mask := map (eq_bool true) m in
   do b <- beta self ;
   do b0 <- item 0 b ;
   let power := masked_set mask b0 power in
   do power <- for_enumerate (add_predictor self df mask) 0 (predictors_list cls) power ;
   Ok {| s_index := index df; s_values := map (retransform_power cls) power |}).

(** [APredictiveModel.print_training_results]: the lines printed, as the
    pairs of a coefficient with its name and the stationary value. *)
Definition print_training_results (self : Model)
  : result (list (float * string) * float) :=
  match _beta self, _default_usage self with
  | Some _, Some _ =>
      let predictors_list := "intercept"%string :: predictors_list cls in
      do b <- beta self ;
      do d <- default_usage self ;
      Ok (combine b predictors_list, d)
  | _, _ => Raise (RuntimeError "Model is not trained. Train model first.")
  end.

End Orchestration.

(** ** The variants *)

(** [BaseLineModel]: overrides nothing, so the predictor list is empty,
    [spec_model_calc] hands back the frame it was given and both power
    transforms are the identity. *)
Definition BaseLineModel (delta_time : float) : APredictiveModel :=
  {| predictors_list := [];
     spec_model_calc := fun df => (df, Ok df);
     transform_power := fun power => power;
     retransform_power := fun power => power |}.

(** One statement [df[c] = expr] of a method working on the caller's
    frame, and the sequence of two steps. *)
Definition inplace : Type := DataFrame -> DataFrame * result unit.

Definition store (c : string) (expr : DataFrame -> result (list float)) : inplace :=
  fun df =>
    match expr df with
    | Ok s => (setitem c s df, Ok tt)
    | Raise e => (df, Raise e)
    end.

Definition andthen (p q : inplace) : inplace :=
  fun df =>
    match p df with
    | (df', Ok _) => q df'
    | (df', Raise e) => (df', Raise e)
    end.

Infix ";;" := andthen (at level 61, right associativity).

Section FinalModel.
Local Open Scope float_scope.

(** The C library's [pow] on binary64, which NumPy calls for [x ** y]
    with a fractional exponent ([x ** 2] is computed as [x * x]). *)
Variable pow : float -> float -> float.

Variable delta_time : float.

Definition per_dt (a : list float) : list float :=
  map (fun x => x / delta_time) a.

(** The right-hand sides of the seven assignments, each named after the
    column it fills. *)
Definition xy_air_speed (df : DataFrame) : result (list float) :=
  do vx <- floats "vx_anemometer" df ;
  do vy <- floats "vy_anemometer" df ;
  Ok (map PrimFloat.sqrt (map2 PrimFloat.add (map square vx) (map square vy))).

Definition xy_air_acceleration (df : DataFrame) : result (list float) :=
  do vx <- floats "vx_anemometer" df ;
  do vy <- floats "vy_anemometer" df ;
  Ok (map PrimFloat.sqrt
        (map2 PrimFloat.add (map square (per_dt (diff vx)))
                            (map square (per_dt (diff vy))))).

Definition z_acceleration (df : DataFrame) : result (list float) :=
  do vz <- floats "vz_imu" df ;
  Ok (per_dt (diff vz)).

Definition force_z (df : DataFrame) : result (list float) :=
  do a <- floats "z_acceleration" df ;
  do m <- floats "total_mass" df ;
  Ok (map2 PrimFloat.mul a m).

Definition force_xy (df : DataFrame) : result (list float) :=
  do a <- floats "xy_air_acceleration" df ;
  do m <- floats "total_mass" df ;
  Ok (map2 PrimFloat.mul a m).

Definition velocity_xy_factor (df : DataFrame) : result (list float) :=
  do v <- floats "xy_air_speed" df ;
  do m <- floats "total_mass" df ;
  Ok (map2 PrimFloat.mul (map square v) (map (fun x => pow x (2 / 3)) m)).

Definition velocity_z_factor (df : DataFrame) : result (list float) :=
  do v <- floats "vz_imu" df ;
  do m <- floats "total_mass" df ;
  Ok (map2 PrimFloat.mul (map square v) (map (fun x => pow x (2 / 3)) m)).

(** "Calculate additional features specific to this model": the seven
    assignments of [FinalModel.spec_model_calc], made on the caller's
    frame. *)
Definition derive_features : inplace :=
  store "xy_air_speed" xy_air_speed ;;
  store "xy_air_acceleration" xy_air_acceleration ;;
  store "z_acceleration" z_acceleration ;;
  store "force_z" force_z ;;
  store "force_xy" force_xy ;;
  store "velocity_xy_factor" velocity_xy_factor ;;
  store "velocity_z_factor" velocity_z_factor.

(** "Drop NaN values and fix indexes": the last four statements of
    [FinalModel.spec_model_calc], on a frame of their own. *)
Definition fix_indexes (df : DataFrame) : DataFrame :=
  let df := dropna df in
  let df := reset_index df in
  let df := loc_enlarge (-1) 0 df in
  index_add 1 df.

(** The record [df.loc[-1] = [0.0] * len(df.columns)] adds. *)
Definition zero_row (cols : list string) : row := map (fun c => (c, VFloat 0)) cols.

(** The columns [FinalModel.spec_model_calc] fills. *)
Definition derived_columns : list string :=
  ["xy_air_speed"; "xy_air_acceleration"; "z_acceleration"; "force_z"; "force_xy";
   "velocity_xy_factor"; "velocity_z_factor"]%string.

(** [FinalModel.spec_model_calc]. *)
Definition FinalModel_spec_model_calc (df : DataFrame) : DataFrame * result DataFrame :=
  match derive_features df with
  | (df', Ok _) => (df', Ok (fix_indexes df'))
  | (df', Raise e) => (df', Raise e)
  end.

(** [FinalModel]. *)
Definition FinalModel : APredictiveModel :=
  {| predictors_list :=
       ["total_mass"; "force_z"; "force_xy"; "velocity_xy_factor"; "velocity_z_factor"]%string;
     spec_model_calc := FinalModel_spec_model_calc;
     transform_power := fun power => pow power (2 / 3);
     retransform_power := fun power => pow power (3 / 2) |}.

End FinalModel.

(** ** The battery model ([tools/battery.py]) *)

Section Evaluation.
Local Open Scope float_scope.

(** [scipy.interpolate.CubicSpline(xs, ys)(t)]. *)
Variable CubicSpline : list float -> list float -> float -> float.

Definition _default_temp_array : list float := [-40; -20; -10; 0; 25; 40; 55; 60].

Definition _interpolate (cap : list float) (t : float) : float :=
  CubicSpline _default_temp_array cap t / 100.

Definition _get_eff_from_temp_li_ir_ph (temp_c : float) : float :=
  _interpolate [46.6; 74.8; 88.1; 97.6; 100; 110.9; 104.4; 99.1] temp_c.

Definition _get_eff_from_temp_li_man (temp_c : float) : float :=
  _interpolate [36.8; 68.0; 78.4; 97.6; 100; 101.2; 123.5; 110.3] temp_c.

Definition _get_eff_from_temp_li_cb_ox (temp_c : float) : float :=
  _interpolate [11.7; 45.2; 73.6; 93.4; 100; 97.7; 99.6; 98.6] temp_c.

Definition _get_eff_from_temp_aver (temp_c : float) : float :=
  let ir := _get_eff_from_temp_li_ir_ph temp_c in
  let man := _get_eff_from_temp_li_man temp_c in
  let cb := _get_eff_from_temp_li_cb_ox temp_c in
  (ir + man + cb) / 3.0.

Definition _get_eff_from_temp (temp_c : float) : float :=
  _get_eff_from_temp_aver temp_c.

(** [joules2SoC], with its keyword defaults passed explicitly. *)
Definition joules2SoC (initial_percentage : float) (usage : Series)
    (temp nominal_capacity voltage wear_capacity_coefficient : float) : Series :=
  let effective_capacity := nominal_capacity * voltage * 3.6 in
  let effective_capacity :=
    effective_capacity * (_get_eff_from_temp temp * wear_capacity_coefficient) in
  let initial_energy := effective_capacity * initial_percentage in
  let final_energy := map (fun u => initial_energy - u) (s_values usage) in
  {| s_index := s_index usage;
     s_values := map (fun e => e / effective_capacity) final_energy |}.

(** ** The evaluator ([tools/tests_maker.py]) *)

(** [a op s] for a NumPy vector and a series: element by element, the
    result carrying the index of the series. *)
Definition array_op_series (op : float -> float -> float) (a : list float) (s : Series)
  : result Series :=
  if (length a =? length (s_values s))%nat
  then Ok {| s_index := s_index s; s_values := map2 op a (s_values s) |}
  else Raise (ValueError "Lengths must be equal").

Definition series_map (f : float -> float) (s : Series) : Series :=
  {| s_index := s_index s; s_values := map f (s_values s) |}.

(** [s[mask]] for a boolean NumPy mask. *)
Definition series_mask (mask : list bool) (s : Series) : result Series :=
  if (length mask =? length (s_values s))%nat
  then Ok {| s_index := select mask (s_index s); s_values := select mask (s_values s) |}
  else Raise (IndexError "Boolean index has wrong length").

(** [a[k]] on a NumPy vector for a Python integer: a negative [k] counts
    from the end. *)
Definition array_getitem (k : Z) (a : list float) : result float :=
  let n := Z.of_nat (length a) in
  let i := if (k <? 0)%Z then (k + n)%Z else k in
  if ((i <? 0) || (n <=? i))%Z then Raise (IndexError "index is out of bounds")
  else item (Z.to_nat i) a.

(** The entries of a series that carry the label [k], in order. *)
Fixpoint at_label (k : Z) (idx : list Z) (vals : list float) : list float :=
  match idx, vals with
  | l :: idx', v :: vals' =>
      if (l =? k)%Z then v :: at_label k idx' vals' else at_label k idx' vals'
  | _, _ => []
  end.

(** What the code handles as one number: a [float64], or, where a label
    of an index is repeated, the series of the entries under that label. *)
Inductive entry : Type :=
| One (x : float)
| Several (s : Series).

(** [s[k]] for an integer key on a series with integer labels: the entry
    labelled [k] when one entry carries the label, the series of the
    entries that carry it when several do, [KeyError] when none does. *)
Definition series_getitem (k : Z) (s : Series) : result entry :=
  match at_label k (s_index s) (s_values s) with
  | [] => Raise (KeyError "label not in index")
  | [v] => Ok (One v)
  | vs => Ok (Several {| s_index := repeat k (length vs); s_values := vs |})
  end.

(** [Series.cumsum()]: missing entries stay missing and add nothing. *)
Definition series_cumsum (s : Series) : Series :=
  {| s_index := s_index s;
     s_values := map2 (fun x c => if is_nan x then nan else c)
                   (s_values s) (np_cumsum (map fillna0 (s_values s))) |}.

(** [batt_state] is the number [1] until a flight is evaluated, then a
    series. *)
Inductive charge : Type :=
| Full (x : float)
| Trajectory (s : Series).

(** The attributes of [TestsMaker] an evaluation reads and writes. *)
Record TestsMaker : Type := {
  results : list entry;
  batt_state : charge;
  energy : list float;
  energy_cum : list float;
  energy_pred : Series;
  energy_pred_cum : Series
}.

(** What [_model_evaluation] prints. *)
Record Report : Type := {
  mae : float;
  mape : float;
  mae_cum : float;
  mape_cum : float;
  r2 : float;
  r2_cum : float;
  ae : float;
  ape : float;
  soc : float
}.

Definition abs_error (a : list float) (s : Series) : result float :=
  do d <- array_op_series PrimFloat.sub a s ;
  Ok (nanmean (s_values (series_map PrimFloat.abs d))).

Definition abs_percentage_error (a : list float) (s : Series) : result float :=
  let mask := map (fun x => negb (x =? 0)) a in
  do sm <- series_mask mask s ;
  do d <- array_op_series PrimFloat.sub (select mask a) sm ;
  do q <- array_op_series (fun x y => y / x) (select mask a) d ;
  Ok (nanmean (s_values (series_map PrimFloat.abs q)) * 100).

Definition r_squared (a : list float) (s : Series) : result float :=
  do d <- array_op_series PrimFloat.sub a s ;
  let ss_res := nansum (s_values (series_map square d)) in
  let ss_tot := np_sum (map (fun x => square (x - np_mean a)) a) in
  Ok (if negb (ss_tot =? 0) then 1 - ss_res / ss_tot else nan).

(** [TestsMaker._model_evaluation]: the evaluator afterwards, and the
    report printed or the exception raised.  The score is stored and the
    charge projected before anything is printed; where the last label of
    the predicted cumulative series is repeated, the error and the score
    are series, and formatting the error with [:.2f] raises [TypeError]
    after both assignments. *)
Definition _model_evaluation (self : TestsMaker) : TestsMaker * result Report :=
  let pre :=
    do mae <- abs_error (energy self) (energy_pred self) ;
    do mape <- abs_percentage_error (energy self) (energy_pred self) ;
    do mae_cum <- abs_error (energy_cum self) (energy_pred_cum self) ;
    do mape_cum <- abs_percentage_error (energy_cum self) (energy_pred_cum self) ;
    do r2 <- r_squared (energy self) (energy_pred self) ;
    do r2_cum <- r_squared (energy_cum self) (energy_pred_cum self) ;
    let last := (Z.of_nat (length (energy_cum self)) - 1)%Z in
    do true_last <- array_getitem last (energy_cum self) ;
    do pred_last <- series_getitem last (energy_pred_cum self) ;
    do true_last' <- array_getitem last (energy_cum self) ;
    Ok (mae, mape, mae_cum, mape_cum, r2, r2_cum, true_last, pred_last, true_last') in
  match pre with
  | Raise e => (self, Raise e)
  | Ok (mae, mape, mae_cum, mape_cum, r2, r2_cum, true_last, pred_last, true_last') =>
      let soc_series := joules2SoC 1 (energy_pred_cum self) 25 4500 22.2 1 in
      let stored (ape : entry) :=
        {| results := results self ++ [ape];
           batt_state := Trajectory soc_series;
           energy := energy self;
           energy_cum := energy_cum self;
           energy_pred := energy_pred self;
           energy_pred_cum := energy_pred_cum self |} in
      match pred_last with
      | Several p =>
          let ae := series_map (fun x => abs (true_last - x)) p in
          let ape := series_map (fun x => x / true_last' * 100) ae in
          (stored (Several ape),
           Raise (TypeError "unsupported format string passed to Series.__format__"))
      | One p =>
          let ae := abs (true_last - p) in
          let ape := ae / true_last' * 100 in
          match rev (s_values soc_series) with
          | [] => (stored (One ape),
                   Raise (IndexError "single positional indexer is out-of-bounds"))
          | x :: _ =>
              (stored (One ape),
               Ok {| mae := mae; mape := mape; mae_cum := mae_cum; mape_cum := mape_cum;
                     r2 := r2; r2_cum := r2_cum; ae := ae; ape := ape;
                     soc := x * 100 |})
          end
      end
  end.

End Evaluation.

(** [RangeIndex(n)]: the labels [0 .. n-1]. *)
Definition range (n : nat) : list Z := map Z.of_nat (seq 0 n).

(** ** The merged training set, record by record *)

Definition rows (df : DataFrame) : list row := map snd (records df).

(** The records of a list of frames, one frame after the other. *)
Definition all_rows (objs : list DataFrame) : list row := map snd (flat_map records objs).

Section TrainingSet.
Local Open Scope float_scope.
Variable cls : APredictiveModel.

(** [is_moving == b] on a record. *)
Definition moving (b : bool) (r : row) : bool := eq_bool b (cell "is_moving" r).

(** The power indicator of a record: the transformed [voltage * current]. *)
Definition indicator (r : row) : float :=
  transform_power cls (to_float (cell "voltage" r) * to_float (cell "current" r)).

Definition with_indicator (r : row) : row :=
  assign "power_indicator" (VFloat (indicator r)) r.

(** A row of the design matrix: the intercept and the predictors. *)
Definition design_row (r : row) : list float :=
  1 :: map (fun c => to_float (cell c r)) (predictors_list cls).

(** The design matrix and the target vector of the moving phase, and the
    power indicators of the stationary phase. *)
Definition design (dfs : DataFrame) : list (list float) :=
  map design_row (filter (moving true) (map with_indicator (rows dfs))).

Definition targets (dfs : DataFrame) : list float :=
  map indicator (filter (moving true) (rows dfs)).

Definition stationary_indicators (dfs : DataFrame) : list float :=
  map indicator (filter (moving false) (rows dfs)).

(** The linear predictor of a record: the intercept [b[0]], then the
    product of each predictor with its coefficient [b[i + 1]], added in the
    order of the predictor list. *)
Definition linear_predictor (b : list float) (r : row) : float :=
  fold_left (fun acc pc => acc + to_float (cell (fst pc) r) * snd pc)
    (combine (predictors_list cls) (tl b)) (hd 0 b).

(** What [train] reads of one record: the two phase flags, the power
    indicator and the row of the design matrix. *)
Definition view (r : row) : bool * bool * float * list float :=
  (moving true r, moving false r, indicator r, design_row (with_indicator r)).

(** One step of the linear predictor. *)
Definition term (r : row) (acc : float) (pc : string * float) : float :=
  acc + to_float (cell (fst pc) r) * snd pc.

(** The columns [train] reads from the merged frame. *)
Definition trainable (dfs : DataFrame) : bool :=
  has_column "voltage" dfs && has_column "current" dfs && has_column "is_moving" dfs
  && forallb (fun p => has_column p dfs || String.eqb p "power_indicator")
       (predictors_list cls).

End TrainingSet.

(** Column [c] holds the series [s], record by record. *)
Fixpoint cells_are (c : string) (s : list float) (rs : list (Z * row)) : Prop :=
  match rs with
  | [] => True
  | (_, r) :: t => lookup c r = Some (VFloat (hd nan s)) /\ cells_are c (tl s) t
  end.

(** ** Example data *)

(** The scenario of the test plan: true per-step energy [10, 20, 30] and
    predicted [12, 18, 33]. *)
Definition scenario : TestsMaker :=
  {| results := [];
     batt_state := Full 1;
     energy := [10; 20; 30]%float;
     energy_cum := np_cumsum [10; 20; 30]%float;
     energy_pred := {| s_index := range 3; s_values := [12; 18; 33]%float |};
     energy_pred_cum :=
       series_cumsum {| s_index := range 3; s_values := [12; 18; 33]%float |} |}.

(** The spline of the capacity curves is not among the sources; any
    function stands for it in the examples, which do not read the charge. *)
Definition flat_spline (xs ys : list float) (t : float) : float := 100%float.


(** A frame from its column labels and the cells of its records, labelled
    [0 .. n-1] as [read_csv] does. *)
Definition frame (cols : list string) (data : list (list value)) : DataFrame :=
  {| columns := cols;
     records := relabel 0 (map (fun cells => (0%Z, combine cols cells)) data) |}.

(** A solver that never converges: what the examples compute does not go
    through LAPACK. *)
Definition no_solver (X : list (list float)) (y : list float) : result (list float) :=
  Raise (LinAlgError "SVD did not converge in Linear Least Squares").

Definition telemetry : list string := ["time"; "voltage"; "current"; "is_moving"]%string.

(** A record set without records whose columns keep their dtypes
    ([float64], and [bool] for the flag): what a selection that keeps no
    record of a flight, [df[df["time"] < 0]] say, hands to [train]. *)
Definition no_records : DataFrame := frame telemetry [].

(** Three records, all of them stationary, drawing 3 W, 4.5 W and 6 W. *)
Definition parked : DataFrame :=
  frame telemetry
    [ [VFloat 0; VFloat 1.5; VFloat 2; VBool false];
      [VFloat 1; VFloat 1.5; VFloat 3; VBool false];
      [VFloat 2; VFloat 1.5; VFloat 4; VBool false] ]%float.

(** The C library is not among the sources.  [unit_pow] agrees with
    [pow(x, y)] for a positive exponent on the bases [0] and [1], where the
    C standard fixes the result ([pow(0, y) = 0] and [pow(1, y) = 1]); the
    flights below keep the mass and the electrical power on these two
    values, so no other base reaches it. *)
Definition unit_pow (x y : float) : float := x.

Definition reference_telemetry : list string :=
  ["time"; "voltage"; "current"; "is_moving";
   "vx_anemometer"; "vy_anemometer"; "vz_imu"; "total_mass"]%string.

(** Three records of a flight of unit mass: at rest, then climbing. *)
Definition hop : DataFrame :=
  frame reference_telemetry
    [ [VFloat 0; VFloat 1; VFloat 0; VBool false; VFloat 0; VFloat 0; VFloat 0; VFloat 1];
      [VFloat 1; VFloat 1; VFloat 1; VBool true; VFloat 3; VFloat 4; VFloat 1; VFloat 1];
      [VFloat 2; VFloat 1; VFloat 1; VBool true; VFloat 3; VFloat 4; VFloat 2; VFloat 1] ]%float.

(** One stationary record drawing 2 W, then two moving ones drawing 6 W
    and 10 W. *)
Definition cruise : DataFrame :=
  frame telemetry
    [ [VFloat 0; VFloat 2; VFloat 1; VBool false];
      [VFloat 1; VFloat 2; VFloat 3; VBool true];
      [VFloat 2; VFloat 2; VFloat 5; VBool true] ]%float.

(** For a design matrix that is the intercept column alone, least squares
    fits the mean of the targets: the solver of the baseline variant in the
    examples. *)
Definition mean_solver (X : list (list float)) (y : list float) : result (list float) :=
  Ok [np_mean y].

(** A model as [train] leaves it for the baseline variant on [parked]. *)
Definition parked_model : Model :=
  {| _beta := Some [0%float]; _default_usage := Some 4.5%float |}.

(** A trained model of the reference variant whose coefficients are all
    zero and whose baseline is 1 W: the power indicators it forecasts are 0
    and 1. *)
Definition idle_model : Model :=
  {| _beta := Some [0; 0; 0; 0; 0; 0]%float; _default_usage := Some 1%float |}.

(** Two records of a flight of unit mass that never moves. *)
Definition taxi : DataFrame :=
  frame reference_telemetry
    [ [VFloat 0; VFloat 1; VFloat 0; VBool false; VFloat 0; VFloat 0; VFloat 0; VFloat 1];
      [VFloat 1; VFloat 1; VFloat 1; VBool false; VFloat 3; VFloat 4; VFloat 1; VFloat 1] ]%float.

(** A flight file that lacks the current. *)
Definition no_current : DataFrame :=
  frame ["time"; "voltage"; "is_moving"]%string [[VFloat 0; VFloat 1.5; VBool false]]%float.

(** A flight file without the [is_moving] column. *)
Definition unflagged : DataFrame :=
  frame ["time"; "voltage"; "current"]%string
    [ [VFloat 0; VFloat 5; VFloat 7]; [VFloat 1; VFloat 5; VFloat 9] ]%float.

(** The evaluator after a flight file without records. *)
Definition grounded : TestsMaker :=
  {| results := [One 7%float];
     batt_state := Full 1;
     energy := [];
     energy_cum := [];
     energy_pred := {| s_index := []; s_values := [] |};
     energy_pred_cum := {| s_index := []; s_values := [] |} |}.

(** ** Flight selection ([tools/toolbox.py]) *)

Section FlightSelection.

(** A cell of the parameter table is any Python object: a flight number, a
    payload, a route name.  [missing] is the cell of a record that has no
    value for a column, [same] the equality [Series.unique] goes by. *)
Variable V : Type.
Variable missing : V.
Variable same : V -> V -> bool.

(** On a table without records [Series.apply] hands back an empty series of
    the dtype of the column, and pandas takes it for a boolean mask only
    when that dtype is [bool]; otherwise the key selects no column.  The
    flag says which, for each column. *)
Variable bool_dtype : string -> bool.

Record Table : Type := {
  t_columns : list string;
  t_records : list (list (string * V))
}.

Definition t_cell (c : string) (r : list (string * V)) : V :=
  match find (fun p => String.eqb c (fst p)) r with
  | Some p => snd p
  | None => missing
  end.

Definition t_has (c : string) (t : Table) : bool :=
  existsb (String.eqb c) (t_columns t).

(** [DataFrame.empty]: no column or no record. *)
Definition t_empty (t : Table) : bool :=
  match t_columns t, t_records t with
  | [], _ => true
  | _, [] => true
  | _ :: _, _ :: _ => false
  end.

(** [filtered_data[filtered_data[column].apply(condition)]]. *)
Definition t_where (column : string) (condition : V -> bool) (t : Table) : Table :=
  match t_records t with
  | [] => if bool_dtype column then t else {| t_columns := []; t_records := [] |}
  | _ :: _ =>
      {| t_columns := t_columns t;
         t_records := select (map (fun r => condition (t_cell column r)) (t_records t))
                        (t_records t) |}
  end.

(** The loop over [conditions.items()]: [raise ValueError] for a column
    the table does not have, [break] once nothing is left. *)
Fixpoint apply_conditions (conditions : list (string * (V -> bool))) (filtered_data : Table)
  : result Table :=
  match conditions with
  | [] => Ok filtered_data
  | (column, condition) :: rest =>
      if negb (t_has column filtered_data) then Raise (ValueError "")
      else
        let filtered_data := t_where column condition filtered_data in
        if t_empty filtered_data then Ok filtered_data
        else apply_conditions rest filtered_data
  end.

(** [Series.unique()]: the values in order of first appearance. *)
Definition unique (l : list V) : list V :=
  fold_left (fun acc v => if existsb (fun x => same x v) acc then acc else acc ++ [v]) l [].

(** [Toolbox.get_flights_ids]; [conditions] is [None] or a dictionary, in
    the order of its keys. *)
Definition get_flights_ids (data : Table) (conditions : option (list (string * (V -> bool))))
  : result (list V) :=
  do filtered_data <-
    match conditions with
    | None | Some [] => Ok data
    | Some (c :: cs) => apply_conditions (c :: cs) data
    end ;
  if t_has "flight" filtered_data
  then Ok (unique (map (t_cell "flight") (t_records filtered_data)))
  else Raise (KeyError "flight").

(** A record meets every condition of the list. *)
Definition meets (conditions : list (string * (V -> bool))) (r : list (string * V)) : bool :=
  forallb (fun p => snd p (t_cell (fst p) r)) conditions.

(** No entry of the list is [same] as a later one. *)
Fixpoint distinct (l : list V) : Prop :=
  match l with
  | [] => True
  | x :: t => Forall (fun y => same x y = false) t /\ distinct t
  end.

End FlightSelection.

Arguments t_columns {V} t.
Arguments t_records {V} t.

(** The parameter table of three flights, one line each and the first one
    listed twice, with their payloads in grams. *)
Definition parameters : Table Z :=
  {| t_columns := ["flight"; "payload"]%string;
     t_records := [ [("flight", 1); ("payload", 0)];
                    [("flight", 2); ("payload", 250)];
                    [("flight", 1); ("payload", 0)];
                    [("flight", 3); ("payload", 500)] ]%string%Z |}.

(** ** More example data *)

(** Ten stationary records drawing 0.1 W each: from eight records on the
    order in which NumPy adds the indicators shows in the baseline. *)
Definition long_park : DataFrame :=
  frame telemetry
    (repeat [VFloat 0; VFloat 1; VFloat 0.1; VBool false]%float 10).

(** A trained model of the baseline variant: 7 W for a moving record, 3 W
    for a stationary one. *)
Definition cruise_model : Model :=
  {| _beta := Some [7%float]; _default_usage := Some 3%float |}.

(** A trained model of the reference variant with no coefficient at zero.
    On the two moving records of [hop] its linear predictor is
    [2 + 1.5 + 2.5 + 15 - 25 + 5] and [2 + 1.5 + 2.5 + 0 - 25 + 20], that is
    [1] both times, and its baseline is [0]: the power indicators it
    forecasts stay on the bases 0 and 1. *)
Definition climb_model : Model :=
  {| _beta := Some [2; 1.5; 2.5; 3; -1; 5]%float; _default_usage := Some 0%float |}.

(** A flight of three steps that takes no energy at its first step. *)
Definition coasting : TestsMaker :=
  {| results := [];
     batt_state := Full 1;
     energy := [0; 20; 30]%float;
     energy_cum := np_cumsum [0; 20; 30]%float;
     energy_pred := {| s_index := range 3; s_values := [12; 18; 33]%float |};
     energy_pred_cum :=
       series_cumsum {| s_index := range 3; s_values := [12; 18; 33]%float |} |}.

(** A flight of three steps that takes no energy at all. *)
Definition stalled : TestsMaker :=
  {| results := [];
     batt_state := Full 1;
     energy := [0; 0; 0]%float;
     energy_cum := np_cumsum [0; 0; 0]%float;
     energy_pred := {| s_index := range 3; s_values := [1; 2; 3]%float |};
     energy_pred_cum :=
       series_cumsum {| s_index := range 3; s_values := [1; 2; 3]%float |} |}.

(** The predicted series of [scenario] with the label [2] given twice. *)
Definition relabelled : TestsMaker :=
  {| results := [];
     batt_state := Full 1;
     energy := [10; 20; 30]%float;
     energy_cum := np_cumsum [10; 20; 30]%float;
     energy_pred := {| s_index := [0; 2; 2]%Z; s_values := [12; 18; 33]%float |};
     energy_pred_cum :=
       series_cumsum {| s_index := [0; 2; 2]%Z; s_values := [12; 18; 33]%float |} |}.

(** A flight of ten steps taking 0.1 J each, forecast at no energy. *)
Definition steady : TestsMaker :=
  {| results := [];
     batt_state := Full 1;
     energy := repeat 0.1%float 10;
     energy_cum := np_cumsum (repeat 0.1%float 10);
     energy_pred := {| s_index := range 10; s_values := repeat 0%float 10 |};
     energy_pred_cum :=
       series_cumsum {| s_index := range 10; s_values := repeat 0%float 10 |} |}.
(** * Properties *)

(** ** Lists, masks and labels *)

Lemma relabel_length (from : Z) (rs : list (Z * row)) :
  length (relabel from rs) = length rs.
Proof.
  revert from; induction rs as [|[l r] t IH]; intros from; simpl; [reflexivity|].
  now rewrite IH.
Qed.

Lemma relabel_rows (from : Z) (rs : list (Z * row)) :
  map snd (relabel from rs) = map snd rs.
Proof.
  revert from; induction rs as [|[l r] t IH]; intros from; simpl; [reflexivity|].
  now rewrite IH.
Qed.

Lemma relabel_index (from : nat) (rs : list (Z * row)) :
  map fst (relabel (Z.of_nat from) rs) = map Z.of_nat (seq from (length rs)).
Proof.
  revert from; induction rs as [|[l r] t IH]; intros from; simpl; [reflexivity|].
  f_equal. rewrite <- IH. do 2 f_equal. lia.
Qed.

(** Selecting with a mask computed record by record is [filter]. *)
Lemma select_filter {A : Type} (p : A -> bool) (a : list A) :
  select (map p a) a = filter p a.
Proof.
  induction a as [|x t IH]; simpl; [reflexivity|].
  destruct (p x); now rewrite IH.
Qed.

Lemma at_label_last (s : nat) (hist : list float) (p : float) :
  at_label (Z.of_nat (s + length hist))
    (map Z.of_nat (seq s (length hist + 1))) (hist ++ [p]) = [p].
Proof.
  revert s; induction hist as [|x t IH]; intros s; simpl.
  - rewrite Nat.add_0_r, Z.eqb_refl. reflexivity.
  - destruct (Z.eqb_spec (Z.of_nat s) (Z.of_nat (s + S (length t)))) as [E|_]; [lia|].
    replace (s + S (length t))%nat with (S s + length t)%nat by lia.
    apply IH.
Qed.

(** No entry carries a label that is not in the index. *)
Lemma at_label_absent (k : Z) (idx : list Z) (vals : list float) :
  ~ In k idx -> at_label k idx vals = [].
Proof.
  revert vals; induction idx as [|l idx IH]; intros [|v vals] N; simpl; try reflexivity.
  destruct (Z.eqb_spec l k) as [E|_]; [exfalso; apply N; now left|].
  apply IH. intros H. apply N. now right.
Qed.

(** In an index without a repeated label, at most one entry carries a
    given label. *)
Lemma at_label_distinct (k : Z) (idx : list Z) (vals : list float) :
  NoDup idx -> (length (at_label k idx vals) <= 1)%nat.
Proof.
  intros D. revert vals; induction D as [|l idx N D IH]; intros [|v vals]; simpl; try lia.
  destruct (Z.eqb_spec l k) as [E|_]; [|apply IH].
  subst l. rewrite (at_label_absent _ _ _ N). simpl. lia.
Qed.

Lemma at_label_values (k : Z) (idx : list Z) (vals : list float) :
  at_label k idx vals <> [] -> vals <> [].
Proof. destruct idx, vals; simpl; congruence. Qed.

(** ** The order of the additions of a sum *)

(** The fuel of [pairwise_sum] is never used up: any fuel that is at
    least the length of the array gives the same sum. *)
Lemma pairwise_sum_fuel (f1 f2 : nat) (a : list float) :
  (length a <= f1)%nat -> (length a <= f2)%nat ->
  pairwise_sum f1 a = pairwise_sum f2 a.
Proof.
  revert f2 a; induction f1 as [|f1 IH]; intros f2 a L1 L2.
  - destruct a; [|simpl in L1; lia]. destruct f2; reflexivity.
  - destruct f2 as [|f2].
    { destruct a; [reflexivity|simpl in L2; lia]. }
    cbn [pairwise_sum].
    destruct (Nat.ltb_spec (length a) 8); [reflexivity|].
    destruct (Nat.leb_spec (length a) 128); [reflexivity|].
    assert (H64 : (64 <= length a / 2)%nat) by (apply Nat.div_le_lower_bound; lia).
    assert (M : ((length a / 2) mod 8 < 8)%nat) by (apply Nat.mod_upper_bound; lia).
    assert (H2 : (length a / 2 < length a)%nat) by (apply Nat.div_lt; lia).
    f_equal; apply IH; rewrite ?length_firstn, ?length_skipn; lia.
Qed.

(** Below eight elements the sum runs from left to right. *)
Lemma np_sum_short (a : list float) :
  (length a < 8)%nat -> np_sum a = sum_small a.
Proof.
  intros L. unfold np_sum. apply Nat.ltb_lt in L.
  generalize (length a) at 1. intros fuel.
  destruct fuel; cbn [pairwise_sum]; now rewrite L.
Qed.

(** Ten times 0.1: the pairs of NumPy give [1], the sum from left to right
    does not. *)
Example np_sum_tenths :
  np_sum (repeat 0.1%float 10) = 1%float
  /\ sum_small (repeat 0.1%float 10) = 0.99999999999999989%float.
Proof. split; reflexivity. Qed.

Lemma nth_error_last {A : Type} (hist : list A) (x : A) :
  nth_error (hist ++ [x]) (length hist) = Some x.
Proof.
  rewrite nth_error_app2 by lia. now rewrite Nat.sub_diag.
Qed.

(** ** The evaluator *)

Section EvaluationFacts.
Local Open Scope float_scope.
Variable CubicSpline : list float -> list float -> float -> float.

Lemma map_map2 {A B C D : Type} (f : C -> D) (g : A -> B -> C) (a : list A) (b : list B) :
  map f (map2 g a b) = map2 (fun x y => f (g x y)) a b.
Proof.
  revert b; induction a as [|x t IH]; intros [|y u]; simpl; try reflexivity.
  now rewrite IH.
Qed.

Lemma select_length {A B : Type} (mask : list bool) (a : list A) (b : list B) :
  length a = length b -> length (select mask a) = length (select mask b).
Proof.
  revert a b; induction mask as [|m mask IH]; intros [|x a] [|y b] E;
    simpl in *; try reflexivity; try discriminate.
  injection E as E. destruct m; simpl; auto.
Qed.

Lemma map2_length {A B C : Type} (f : A -> B -> C) (a : list A) (b : list B) :
  length a = length b -> length (map2 f a b) = length a.
Proof.
  revert b; induction a as [|x t IH]; intros [|y u] E; simpl in *;
    try reflexivity; try discriminate.
  injection E as E. now rewrite IH.
Qed.

Lemma array_op_series_ok (op : float -> float -> float) (a : list float) (s : Series) :
  length a = length (s_values s) ->
  array_op_series op a s = Ok {| s_index := s_index s; s_values := map2 op a (s_values s) |}.
Proof.
  intros E. unfold array_op_series. now rewrite E, Nat.eqb_refl.
Qed.

Lemma abs_error_ok (a : list float) (s : Series) :
  length a = length (s_values s) ->
  abs_error a s = Ok (nanmean (map2 (fun t p => abs (t - p)) a (s_values s))).
Proof.
  intros E. unfold abs_error. rewrite (array_op_series_ok _ _ _ E). simpl.
  now rewrite map_map2.
Qed.

Lemma abs_percentage_error_ok (a : list float) (s : Series) :
  length a = length (s_values s) -> exists x, abs_percentage_error a s = Ok x.
Proof.
  intros E. unfold abs_percentage_error, series_mask.
  rewrite length_map, E, Nat.eqb_refl. simpl.
  rewrite array_op_series_ok by (simpl; now apply select_length). simpl.
  rewrite array_op_series_ok; [eexists; reflexivity|]. simpl.
  rewrite map2_length; [reflexivity|now apply select_length].
Qed.

Lemma r_squared_ok (a : list float) (s : Series) :
  length a = length (s_values s) -> exists x, r_squared a s = Ok x.
Proof.
  intros E. unfold r_squared. rewrite (array_op_series_ok _ _ _ E). simpl.
  eexists; reflexivity.
Qed.

Lemma array_getitem_last (hist : list float) (x : float) :
  array_getitem (Z.of_nat (length (hist ++ [x])) - 1) (hist ++ [x]) = Ok x.
Proof.
  unfold array_getitem. rewrite length_app. simpl length.
  destruct (Z.ltb_spec (Z.of_nat (length hist + 1) - 1) 0) as [H|_]; [lia|].
  destruct (Z.ltb_spec (Z.of_nat (length hist + 1) - 1) 0) as [H|_]; [lia|].
  destruct (Z.leb_spec (Z.of_nat (length hist + 1)) (Z.of_nat (length hist + 1) - 1))
    as [H|_]; [lia|].
  simpl. unfold item.
  replace (Z.to_nat (Z.of_nat (length hist + 1) - 1)) with (length hist) by lia.
  now rewrite nth_error_last.
Qed.

(** Without missing entries the pandas mean is the plain mean. *)
Lemma nanmean_notna (a : list float) :
  forallb (fun x => negb (is_nan x)) a = true -> a <> [] -> nanmean a = np_mean a.
Proof.
  intros H N. unfold nanmean, np_mean, nansum, count_notna.
  assert (F : filter (fun x => negb (is_nan x)) a = a).
  { clear N. induction a as [|x t IH]; simpl in *; [reflexivity|].
    apply andb_prop in H as [Hx Ht]. rewrite Hx. now rewrite IH. }
  assert (M : map fillna0 a = a).
  { clear N F. induction a as [|x t IH]; simpl in *; [reflexivity|].
    apply andb_prop in H as [Hx Ht]. unfold fillna0 at 1.
    destruct (is_nan x); [discriminate|]. now rewrite IH. }
  rewrite F, M. destruct a; [contradiction|]. reflexivity.
Qed.

(** C9. For an evaluated flight whose true and predicted energy series
    have the same length, have at least one entry and whose predicted
    cumulative series is labelled [0 .. n-1], [_model_evaluation] succeeds;
    the MAE it reports is the mean of the absolute differences between the
    true and the predicted per-step energy, and the score it appends to
    [results] is the trailing APE: the absolute difference of the last
    true and the last predicted cumulative energy, over the last true
    cumulative energy, times 100. *)
Theorem evaluation_scores (self : TestsMaker) (hist : list float) (true_last : float) :
  length (energy self) = length (s_values (energy_pred self)) ->
  length (energy_cum self) = length (s_values (energy_pred_cum self)) ->
  energy_cum self = hist ++ [true_last] ->
  s_index (energy_pred_cum self) = range (length (energy_cum self)) ->
  exists (rep : Report) (self' : TestsMaker) (hist' : list float) (pred_last : float),
    _model_evaluation CubicSpline self = (self', Ok rep)
    /\ s_values (energy_pred_cum self) = hist' ++ [pred_last]
    /\ mae rep = nanmean (map2 (fun t p => abs (t - p))
                            (energy self) (s_values (energy_pred self)))
    /\ (forallb (fun x => negb (is_nan x))
          (map2 (fun t p => abs (t - p)) (energy self) (s_values (energy_pred self))) = true ->
        energy self <> [] ->
        mae rep = np_mean (map2 (fun t p => abs (t - p))
                             (energy self) (s_values (energy_pred self))))
    /\ ape rep = abs (true_last - pred_last) / true_last * 100
    /\ results self' = results self ++ [One (ape rep)].
Proof.
  intros E1 E2 Hc Hi.
  destruct (exists_last (l := s_values (energy_pred_cum self))) as (hist' & pred_last & Hp).
  { intros N. rewrite N, Hc, length_app in E2. simpl in E2. lia. }
  assert (Hl : length hist' = length hist).
  { rewrite Hc, Hp, !length_app in E2. simpl in E2. lia. }
  destruct (abs_percentage_error_ok _ _ E1) as (mape1 & M1).
  destruct (abs_percentage_error_ok _ _ E2) as (mape2 & M2).
  destruct (r_squared_ok _ _ E1) as (r1 & R1).
  destruct (r_squared_ok _ _ E2) as (r2c & R2).
  assert (G : series_getitem (Z.of_nat (length (energy_cum self)) - 1) (energy_pred_cum self)
              = Ok (One pred_last)).
  { unfold series_getitem. rewrite Hi, Hp, Hc, length_app. simpl length. unfold range.
    replace (Z.of_nat (length hist + 1) - 1)%Z with (Z.of_nat (0 + length hist')) by lia.
    rewrite <- Hl. now rewrite at_label_last. }
  assert (A : array_getitem (Z.of_nat (length (energy_cum self)) - 1) (energy_cum self)
              = Ok true_last).
  { rewrite Hc. apply array_getitem_last. }
  unfold _model_evaluation.
  rewrite (abs_error_ok _ _ E1), (abs_error_ok _ _ E2), M1, M2, R1, R2, A, G.
  cbn [bind]. unfold joules2SoC. cbn [s_values].
  rewrite Hp, !map_app. cbn [map]. rewrite rev_app_distr. cbn [rev app].
  do 4 eexists. split; [reflexivity|]. cbn [mae ape results].
  repeat split; try reflexivity.
  intros N1 N2. apply nanmean_notna; [exact N1|].
  destruct (energy self) as [|x t]; [contradiction|].
  destruct (s_values (energy_pred self)); [discriminate|]. discriminate.
Qed.

End EvaluationFacts.

Lemma evaluation_scores_scenario :
  (exists (rep : Report) (self' : TestsMaker),
     _model_evaluation flat_spline scenario = (self', Ok rep)
     /\ energy_cum scenario = [10; 30; 60]%float
     /\ s_values (energy_pred_cum scenario) = [12; 30; 63]%float
     /\ mae rep = 2.3333333333333335%float
     /\ mae rep = (7 / 3)%float
     /\ ape rep = 5%float
     /\ results self' = [One 5%float])
  /\ (exists (rep : Report) (self' : TestsMaker),
       _model_evaluation flat_spline steady = (self', Ok rep)
       /\ length (energy steady) = 10%nat
       /\ mae rep = 0.1%float
       /\ mae rep <> (sum_small (repeat 0.1 10) / 10)%float
       /\ ape rep = 100%float
       /\ results self' = [One 100%float]).
Proof.
  split.
  - destruct (evaluation_scores flat_spline scenario [10; 30]%float 60%float)
      as (rep & self' & hist' & pred_last & Hrun & Hp & Hmae & _ & Hape & Hres);
      try reflexivity.
    exists rep, self'.
    assert (pred_last = 63%float) as ->.
    { change (s_values (energy_pred_cum scenario)) with ([12; 30] ++ [63])%float in Hp.
      apply app_inj_tail in Hp. symmetry. apply Hp. }
    rewrite Hres, Hape, Hmae.
    repeat split; try reflexivity. exact Hrun.
  - destruct (evaluation_scores flat_spline steady (removelast (energy_cum steady))
                (last (energy_cum steady) 0%float))
      as (rep & self' & hist' & pred_last & Hrun & Hp & Hmae & _ & Hape & Hres);
      try reflexivity.
    exists rep, self'.
    assert (pred_last = 0%float) as ->.
    { change (s_values (energy_pred_cum steady)) with (repeat 0%float 9 ++ [0%float]) in Hp.
      apply app_inj_tail in Hp. symmetry. apply Hp. }
    rewrite Hres, Hape, Hmae.
    repeat split; try reflexivity; try exact Hrun.
    vm_compute. discriminate.
Defined.

(** ** Cells and columns *)

Lemma lookup_assign_same (c : string) (v : value) (r : row) :
  lookup c (assign c v r) = Some v.
Proof.
  induction r as [|[c' v'] t IH]; simpl.
  - now rewrite String.eqb_refl.
  - destruct (String.eqb c c') eqn:E; simpl; rewrite E; [reflexivity|exact IH].
Qed.

Lemma lookup_assign_other (c c' : string) (v : value) (r : row) :
  String.eqb c c' = false -> lookup c (assign c' v r) = lookup c r.
Proof.
  intros N. induction r as [|[d w] t IH]; simpl.
  - now rewrite N.
  - destruct (String.eqb c' d) eqn:E; simpl.
    + apply String.eqb_eq in E. subst d. now rewrite N.
    + destruct (String.eqb c d); [reflexivity|exact IH].
Qed.

Lemma cell_assign_same (c : string) (v : value) (r : row) :
  cell c (assign c v r) = v.
Proof. unfold cell. now rewrite lookup_assign_same. Qed.

Lemma cell_assign_other (c c' : string) (v : value) (r : row) :
  String.eqb c c' = false -> cell c (assign c' v r) = cell c r.
Proof. intros N. unfold cell. now rewrite lookup_assign_other. Qed.

Lemma has_column_app (c c' : string) (cols : list string) :
  existsb (String.eqb c) (cols ++ [c']) = existsb (String.eqb c) cols || String.eqb c c'.
Proof. rewrite existsb_app. simpl. now rewrite orb_false_r. Qed.

Lemma has_column_setitem (c c' : string) (s : list float) (df : DataFrame) :
  has_column c (setitem c' s df) = has_column c df || String.eqb c c'.
Proof.
  unfold setitem, has_column at 1. simpl. unfold has_column.
  destruct (existsb (String.eqb c') (columns df)) eqn:H.
  - destruct (String.eqb c c') eqn:E; [|now rewrite orb_false_r].
    apply String.eqb_eq in E. subst. now rewrite H.
  - apply has_column_app.
Qed.

Lemma set_cells_other (c c' : string) (s : list float) (rs : list (Z * row)) :
  String.eqb c c' = false ->
  map (fun r => cell c (snd r)) (set_cells c' s rs) = map (fun r => cell c (snd r)) rs.
Proof.
  intros N. revert s; induction rs as [|[l r] t IH]; intros s; simpl; [reflexivity|].
  now rewrite cell_assign_other, IH.
Qed.

(** A column computed record by record is stored record by record. *)
Lemma set_cells_map (c : string) (g : Z * row -> float) (rs : list (Z * row)) :
  set_cells c (map g rs) rs
  = map (fun r => (fst r, assign c (VFloat (g r)) (snd r))) rs.
Proof.
  induction rs as [|[l r] t IH]; simpl; [reflexivity|]. now rewrite IH.
Qed.

Lemma getitem_setitem_other (c c' : string) (s : list float) (df : DataFrame) :
  String.eqb c c' = false -> getitem c (setitem c' s df) = getitem c df.
Proof.
  intros N. unfold getitem. rewrite has_column_setitem, N, orb_false_r.
  destruct (has_column c df); [|reflexivity].
  simpl. now rewrite set_cells_other.
Qed.

Lemma floats_setitem_other (c c' : string) (s : list float) (df : DataFrame) :
  String.eqb c c' = false -> floats c (setitem c' s df) = floats c df.
Proof. intros N. unfold floats. now rewrite getitem_setitem_other. Qed.

Lemma map2_map {A B C D : Type} (f : B -> C -> D) (g : A -> B) (h : A -> C) (l : list A) :
  map2 f (map g l) (map h l) = map (fun x => f (g x) (h x)) l.
Proof. induction l as [|x t IH]; simpl; [reflexivity|]. now rewrite IH. Qed.

Lemma getitem_ok (c : string) (df : DataFrame) :
  has_column c df = true ->
  getitem c df = Ok (map (fun r => cell c (snd r)) (records df)).
Proof. intros H. unfold getitem. now rewrite H. Qed.

Lemma getitem_ok_inv (c : string) (df : DataFrame) (vs : list value) :
  getitem c df = Ok vs ->
  has_column c df = true /\ vs = map (fun r => cell c (snd r)) (records df).
Proof.
  unfold getitem. destruct (has_column c df); [|discriminate].
  intros E. injection E as <-. now split.
Qed.

Lemma floats_ok (c : string) (df : DataFrame) :
  has_column c df = true ->
  floats c df = Ok (map (fun r => to_float (cell c (snd r))) (records df)).
Proof. intros H. unfold floats. rewrite getitem_ok by exact H. simpl. now rewrite map_map. Qed.

Lemma floats_ok_inv (c : string) (df : DataFrame) (xs : list float) :
  floats c df = Ok xs ->
  has_column c df = true /\ xs = map (fun r => to_float (cell c (snd r))) (records df).
Proof.
  unfold floats. destruct (getitem c df) as [vs|e] eqn:G; [|discriminate].
  apply getitem_ok_inv in G as [H ->]. simpl. intros E. injection E as <-.
  split; [exact H|now rewrite map_map].
Qed.

(** ** Training *)

Section TrainingFacts.
Local Open Scope float_scope.
Variable gelsd : list (list float) -> list float -> result (list float).
Variable cls : APredictiveModel.

Lemma filter_snd {A B : Type} (p : B -> bool) (l : list (A * B)) :
  map snd (filter (fun r => p (snd r)) l) = filter p (map snd l).
Proof.
  induction l as [|x t IH]; simpl; [reflexivity|].
  destruct (p (snd x)); simpl; now rewrite IH.
Qed.

Lemma moving_with_indicator (b : bool) (r : row) :
  moving b (with_indicator cls r) = moving b r.
Proof. unfold moving, with_indicator. now rewrite cell_assign_other. Qed.

Lemma indicator_with_indicator (r : row) :
  to_float (cell "power_indicator" (with_indicator cls r)) = indicator cls r.
Proof. unfold with_indicator. now rewrite cell_assign_same. Qed.

(** The merged frame once [power_indicator] is stored. *)
Lemma merged_with_indicator (dfs : DataFrame) (voltage current : list float) :
  floats "voltage" dfs = Ok voltage -> floats "current" dfs = Ok current ->
  rows (setitem "power_indicator"
          (map (transform_power cls) (map2 PrimFloat.mul voltage current)) dfs)
  = map (with_indicator cls) (rows dfs).
Proof.
  intros V C. apply floats_ok_inv in V as [_ ->]. apply floats_ok_inv in C as [_ ->].
  rewrite map2_map, map_map. unfold rows, setitem. cbn [records].
  rewrite (set_cells_map "power_indicator"
             (fun r => transform_power cls
                         (to_float (cell "voltage" (snd r)) * to_float (cell "current" (snd r))))).
  rewrite !map_map. reflexivity.
Qed.

Lemma phase_rows (b : bool) (dfs df : DataFrame) :
  phase b dfs = Ok df ->
  has_column "is_moving" dfs = true /\ columns df = columns dfs
  /\ rows df = filter (moving b) (rows dfs).
Proof.
  unfold phase. destruct (getitem "is_moving" dfs) as [m|e] eqn:G; [|discriminate].
  apply getitem_ok_inv in G as [H ->]. simpl. intros E. injection E as <-.
  split; [exact H|]. split; [reflexivity|].
  unfold rows, take. cbn [records]. rewrite map_map.
  rewrite (select_filter (fun r => eq_bool b (cell "is_moving" (snd r)))).
  apply (filter_snd (moving b)).
Qed.

Lemma phase_ok (b : bool) (dfs : DataFrame) :
  has_column "is_moving" dfs = true -> exists df, phase b dfs = Ok df.
Proof. intros H. unfold phase. rewrite getitem_ok by exact H. simpl. eauto. Qed.

Lemma getitems_ok (cs : list string) (df : DataFrame) :
  forallb (fun c => has_column c df) cs = true ->
  getitems cs df = Ok (map (fun r => map (fun c => to_float (cell c r)) cs) (rows df)).
Proof.
  intros H. unfold getitems, rows.
  assert (F : find (fun c => negb (has_column c df)) cs = None).
  { induction cs as [|c t IH]; simpl in *; [reflexivity|].
    apply andb_prop in H as [Hc Ht]. rewrite Hc. simpl. auto. }
  rewrite F. now rewrite map_map.
Qed.

Lemma getitems_ok_inv (cs : list string) (df : DataFrame) (X : list (list float)) :
  getitems cs df = Ok X -> forallb (fun c => has_column c df) cs = true.
Proof.
  unfold getitems. destruct (find _ cs) eqn:F; [discriminate|]. intros _.
  induction cs as [|c t IH]; simpl in *; [reflexivity|].
  destruct (has_column c df); simpl in *; [auto|discriminate].
Qed.

Lemma filter_map_stable {A : Type} (p : A -> bool) (f : A -> A) (l : list A) :
  (forall x, p (f x) = p x) -> filter p (map f l) = map f (filter p l).
Proof.
  intros H. induction l as [|x t IH]; simpl; [reflexivity|].
  rewrite H. destruct (p x); simpl; now rewrite IH.
Qed.

Lemma forallb_pointwise {A : Type} (p q : A -> bool) (l : list A) :
  (forall x, p x = q x) -> forallb p l = forallb q l.
Proof. intros H. induction l as [|x t IH]; simpl; [reflexivity|]. now rewrite H, IH. Qed.

Lemma has_column_columns (c : string) (df df' : DataFrame) :
  columns df = columns df' -> has_column c df = has_column c df'.
Proof. intros E. unfold has_column. now rewrite E. Qed.

(** [fit] on a frame with the columns it reads: the least-squares problem
    is the one of [design] and [targets], and the stationary part carries
    the [stationary_indicators]. *)
Lemma fit_eq (dfs : DataFrame) :
  trainable cls dfs = true ->
  exists df2,
    fit gelsd cls dfs
    = (do b <- lstsq gelsd (S (length (predictors_list cls)))
                 (design cls dfs) (targets cls dfs) ;
       Ok (b, df2))
    /\ floats "power_indicator" df2 = Ok (stationary_indicators cls dfs).
Proof.
  unfold trainable. intros T.
  apply andb_prop in T as [T HP]. apply andb_prop in T as [T HM].
  apply andb_prop in T as [HV HC].
  unfold fit. rewrite (floats_ok _ _ HV), (floats_ok _ _ HC). cbn [bind].
  set (dfs' := setitem "power_indicator" _ dfs).
  assert (R : rows dfs' = map (with_indicator cls) (rows dfs)).
  { apply merged_with_indicator; now apply floats_ok. }
  assert (HM' : has_column "is_moving" dfs' = true).
  { unfold dfs'. now rewrite has_column_setitem, HM. }
  destruct (phase_ok true dfs' HM') as (df1 & P1).
  destruct (phase_ok false dfs' HM') as (df2 & P2).
  rewrite P1, P2. cbn [bind].
  apply phase_rows in P1 as (_ & C1 & R1). apply phase_rows in P2 as (_ & C2 & R2).
  assert (HPI : forall df, columns df = columns dfs' -> has_column "power_indicator" df = true).
  { intros df E. rewrite (has_column_columns _ _ _ E). unfold dfs'.
    rewrite has_column_setitem. apply orb_true_r. }
  rewrite getitems_ok.
  2:{ erewrite forallb_pointwise; [exact HP|]. intros p. cbv beta.
      rewrite (has_column_columns _ _ _ C1). unfold dfs'. apply has_column_setitem. }
  cbn [bind]. rewrite (floats_ok _ _ (HPI _ C1)). cbn [bind].
  exists df2. split.
  - assert (EX : map (cons 1)
                     (map (fun r => map (fun c => to_float (cell c r)) (predictors_list cls))
                        (rows df1)) = design cls dfs).
    { rewrite map_map, R1, R. reflexivity. }
    assert (EY : map (fun r : Z * row => to_float (cell "power_indicator" (snd r)))
                   (records df1) = targets cls dfs).
    { rewrite <- (map_map snd (fun r => to_float (cell "power_indicator" r))).
      fold (rows df1). rewrite R1, R. unfold targets.
      rewrite filter_map_stable by apply moving_with_indicator.
      rewrite map_map. apply map_ext. intros r. apply indicator_with_indicator. }
    now rewrite EX, EY.
  - rewrite (floats_ok _ _ (HPI _ C2)). f_equal.
    rewrite <- (map_map snd (fun r => to_float (cell "power_indicator" r))).
    fold (rows df2). rewrite R2, R. unfold stationary_indicators.
    rewrite filter_map_stable by apply moving_with_indicator.
    rewrite map_map. apply map_ext. intros r. apply indicator_with_indicator.
Qed.

(** A successful [fit] read all its columns. *)
Lemma fit_ok_inv (dfs : DataFrame) (b : list float) (df2 : DataFrame) :
  fit gelsd cls dfs = Ok (b, df2) -> trainable cls dfs = true.
Proof.
  unfold fit, trainable.
  destruct (floats "voltage" dfs) as [v|] eqn:V; [|discriminate].
  destruct (floats "current" dfs) as [c|] eqn:C; [|discriminate].
  cbn [bind]. set (dfs' := setitem "power_indicator" _ dfs).
  destruct (phase true dfs') as [df1|] eqn:P1; [|discriminate].
  destruct (phase false dfs') as [df2'|] eqn:P2; [|discriminate].
  cbn [bind].
  destruct (getitems (predictors_list cls) df1) as [X|] eqn:G; [|discriminate].
  intros _.
  apply floats_ok_inv in V as [-> _]. apply floats_ok_inv in C as [-> _].
  apply phase_rows in P1 as (HM & C1 & _).
  apply getitems_ok_inv in G.
  unfold dfs' in HM. rewrite has_column_setitem in HM. simpl in HM.
  rewrite orb_false_r in HM. rewrite HM. simpl.
  erewrite forallb_pointwise; [exact G|]. intros p. cbv beta.
  rewrite (has_column_columns _ _ _ C1). unfold dfs'. now rewrite has_column_setitem.
Qed.

(** [train] on record sets that derive and merge into a frame with the
    columns read: the model receives what [lstsq] returns for [design] and
    [targets], and the pandas mean of the [stationary_indicators]. *)
Lemma train_eq (dfs_list ts : list DataFrame) (dfs : DataFrame) (self : Model) :
  mapM (fun df => snd (spec_model_calc cls df)) dfs_list = Ok ts ->
  concat ts = Ok dfs ->
  trainable cls dfs = true ->
  train gelsd cls dfs_list self
  = match lstsq gelsd (S (length (predictors_list cls))) (design cls dfs) (targets cls dfs) with
    | Ok b => ({| _beta := Some b;
                  _default_usage := Some (nanmean (stationary_indicators cls dfs)) |}, Ok tt)
    | Raise e => (self, Raise e)
    end.
Proof.
  intros D C T. unfold train. rewrite D, C.
  destruct (fit_eq dfs T) as (df2 & F & P). rewrite F.
  destruct (lstsq gelsd _ _ _) as [b|e]; cbn [bind]; [|reflexivity].
  now rewrite P.
Qed.

(** A [train] that completed went through every stage. *)
Lemma train_ok_inv (dfs_list : list DataFrame) (self self' : Model) :
  train gelsd cls dfs_list self = (self', Ok tt) ->
  exists ts dfs b,
    mapM (fun df => snd (spec_model_calc cls df)) dfs_list = Ok ts
    /\ concat ts = Ok dfs
    /\ trainable cls dfs = true
    /\ lstsq gelsd (S (length (predictors_list cls))) (design cls dfs) (targets cls dfs) = Ok b
    /\ self' = {| _beta := Some b;
                  _default_usage := Some (nanmean (stationary_indicators cls dfs)) |}.
Proof.
  intros H. unfold train in H.
  destruct (mapM _ dfs_list) as [ts|e] eqn:D; [|discriminate].
  destruct (concat ts) as [dfs|e] eqn:C; [|destruct e; discriminate].
  destruct (fit gelsd cls dfs) as [[b df2]|e] eqn:F; [|discriminate].
  pose proof (fit_ok_inv _ _ _ F) as T.
  destruct (fit_eq dfs T) as (df2' & F' & P). rewrite F' in F.
  destruct (lstsq gelsd _ _ _) as [b'|e] eqn:L; [|discriminate].
  cbn [bind] in F. injection F as -> ->. rewrite P in H. injection H as <-.
  exists ts, dfs, b. repeat split; assumption || reflexivity.
Qed.

End TrainingFacts.

Section TrainingClaims.
Local Open Scope float_scope.
Variable gelsd : list (list float) -> list float -> result (list float).
Variable cls : APredictiveModel.

Lemma design_without_moving_rows (dfs : DataFrame) :
  filter (moving true) (rows dfs) = [] -> design cls dfs = [] /\ targets cls dfs = [].
Proof.
  intros E. unfold design, targets.
  rewrite filter_map_stable by apply moving_with_indicator.
  now rewrite E.
Qed.

(** C1 (as the code has it). When the merged training set has no record
    with [is_moving == True], [train] does not fail: NumPy solves the empty
    system with the zero vector, so the model receives the all-zero
    coefficient vector, one entry for the intercept and one per predictor,
    and the mean of the stationary power indicators. *)
Theorem train_without_moving_rows
    (dfs_list ts : list DataFrame) (dfs : DataFrame) (self : Model) :
  mapM (fun df => snd (spec_model_calc cls df)) dfs_list = Ok ts ->
  concat ts = Ok dfs ->
  trainable cls dfs = true ->
  filter (moving true) (rows dfs) = [] ->
  train gelsd cls dfs_list self
  = ({| _beta := Some (repeat 0 (S (length (predictors_list cls))));
        _default_usage := Some (nanmean (stationary_indicators cls dfs)) |}, Ok tt).
Proof.
  intros D C T E. rewrite (train_eq gelsd cls _ _ _ self D C T).
  destruct (design_without_moving_rows dfs E) as [-> ->]. reflexivity.
Qed.

(** C5. When the record sets derive and merge into a frame with the
    columns read and the least-squares fit returns, [train] completes and
    the stationary baseline is the pandas mean of the power indicator over
    the records with [is_moving == False]: their plain mean when none is
    missing, [(a + b + c) / 3] for three of them, and [nan] when there is
    no stationary record. *)
Theorem stationary_baseline
    (dfs_list ts : list DataFrame) (dfs : DataFrame) (self : Model) (b : list float) :
  mapM (fun df => snd (spec_model_calc cls df)) dfs_list = Ok ts ->
  concat ts = Ok dfs ->
  trainable cls dfs = true ->
  lstsq gelsd (S (length (predictors_list cls))) (design cls dfs) (targets cls dfs) = Ok b ->
  exists self',
    train gelsd cls dfs_list self = (self', Ok tt)
    /\ _default_usage self' = Some (nanmean (stationary_indicators cls dfs))
    /\ (forallb (fun x => negb (is_nan x)) (stationary_indicators cls dfs) = true ->
        stationary_indicators cls dfs <> [] ->
        _default_usage self' = Some (np_mean (stationary_indicators cls dfs)))
    /\ (forall x y z, stationary_indicators cls dfs = [x; y; z] ->
        is_nan x = false -> is_nan y = false -> is_nan z = false ->
        _default_usage self' = Some ((x + y + z) / 3))
    /\ (stationary_indicators cls dfs = [] -> _default_usage self' = Some nan).
Proof.
  intros D C T L. rewrite (train_eq gelsd cls _ _ _ self D C T), L.
  eexists. split; [reflexivity|]. cbn [_default_usage].
  split; [reflexivity|]. split; [|split].
  - intros N1 N2. now rewrite nanmean_notna.
  - intros x y z E Nx Ny Nz. rewrite E.
    unfold nanmean, count_notna, nansum, fillna0. cbn [filter map].
    rewrite Nx, Ny, Nz. reflexivity.
  - intros E. now rewrite E.
Qed.

Lemma mapM_nonempty {A B : Type} (f : A -> result B) (l : list A) (ys : list B) :
  mapM f l = Ok ys -> l <> [] -> ys <> [].
Proof.
  destruct l as [|x t]; [contradiction|]. simpl.
  destruct (f x); [|discriminate]. simpl. destruct (mapM f t); [|discriminate].
  simpl. intros E _. injection E as <-. discriminate.
Qed.

Lemma concat_nonempty (ts : list DataFrame) :
  ts <> [] -> exists dfs, concat ts = Ok dfs.
Proof. destruct ts; [contradiction|]. intros _. simpl. eauto. Qed.

End TrainingClaims.

Lemma train_without_moving_rows_parked :
  train no_solver (BaseLineModel 0.17) [parked] __init__
  = ({| _beta := Some [0%float]; _default_usage := Some 4.5%float |}, Ok tt).
Proof.
  erewrite train_without_moving_rows; cycle 1.
  - reflexivity.
  - reflexivity.
  - reflexivity.
  - reflexivity.
  - reflexivity.
Defined.

Lemma stationary_baseline_sets :
  (exists self',
     train no_solver (BaseLineModel 0.17) [parked] __init__ = (self', Ok tt)
     /\ stationary_indicators (BaseLineModel 0.17) parked = [3; 4.5; 6]%float
     /\ _default_usage self' = Some ((3 + 4.5 + 6) / 3)%float
     /\ _default_usage self' = Some 4.5%float)
  /\ (exists self' dfs,
       concat [cruise; parked] = Ok dfs
       /\ train mean_solver (BaseLineModel 0.17) [cruise; parked] __init__ = (self', Ok tt)
       /\ map (moving true) (rows dfs) = [false; true; true; false; false; false]
       /\ stationary_indicators (BaseLineModel 0.17) dfs = [2; 3; 4.5; 6]%float
       /\ _beta self' = Some [8%float]
       /\ _default_usage self' = Some 3.875%float)
  /\ (exists self',
       train no_solver (BaseLineModel 0.17) [long_park] __init__ = (self', Ok tt)
       /\ stationary_indicators (BaseLineModel 0.17) long_park = repeat 0.1%float 10
       /\ _default_usage self' = Some 0.1%float
       /\ _default_usage self' <> Some (sum_small (repeat 0.1 10) / 10)%float).
Proof.
  split; [|split].
  - destruct (stationary_baseline no_solver (BaseLineModel 0.17) [parked] [parked]
                parked __init__ [0%float])
      as (self' & Hrun & _ & _ & Hthree & _); try reflexivity.
    exists self'. split; [exact Hrun|]. split; [reflexivity|].
    rewrite (Hthree 3 4.5 6)%float by reflexivity. split; reflexivity.
  - assert (C : exists dfs,
               concat [cruise; parked] = Ok dfs
               /\ map (moving true) (rows dfs) = [false; true; true; false; false; false]
               /\ stationary_indicators (BaseLineModel 0.17) dfs = [2; 3; 4.5; 6]%float
               /\ trainable (BaseLineModel 0.17) dfs = true
               /\ lstsq mean_solver 1 (design (BaseLineModel 0.17) dfs)
                    (targets (BaseLineModel 0.17) dfs) = Ok [8%float]).
    { eexists. split; [reflexivity|]. repeat split; reflexivity. }
    destruct C as (dfs & C & Hm & Hs & Ht & Hl).
    destruct (stationary_baseline mean_solver (BaseLineModel 0.17) [cruise; parked]
                [cruise; parked] dfs __init__ [8%float] eq_refl C Ht Hl)
      as (self' & Hrun & Hmean & _).
    exists self', dfs. split; [exact C|]. split; [exact Hrun|].
    split; [exact Hm|]. split; [exact Hs|]. split.
    + change (_beta (fst (self', @Ok unit tt)) = Some [8%float]). rewrite <- Hrun.
      reflexivity.
    + rewrite Hmean, Hs. reflexivity.
  - destruct (stationary_baseline no_solver (BaseLineModel 0.17) [long_park] [long_park]
                long_park __init__ [0%float])
      as (self' & Hrun & Hmean & _); try reflexivity.
    exists self'. split; [exact Hrun|]. split; [reflexivity|].
    rewrite Hmean. split; [reflexivity|]. vm_compute. discriminate.
Defined.

(** ** Forecasting *)

Section ForecastFacts.
Local Open Scope float_scope.
Variable cls : APredictiveModel.

(** C2. On a freshly constructed model of any variant, [forecast] never
    returns a series, whatever the frame; when the feature derivation goes
    through and the frame has its [is_moving] column, the exception is the
    [RuntimeError] of the property [beta]; and [print_training_results]
    raises the [RuntimeError] of an untrained model. *)
Theorem untrained_model_fails (df : DataFrame) :
  is_ok (snd (forecast cls df __init__)) = false
  /\ (forall df', snd (spec_model_calc cls df) = Ok df' ->
      has_column "is_moving" df' = true ->
      snd (forecast cls df __init__)
      = Raise (RuntimeError "Beta is not initialized. Train model first."))
  /\ print_training_results cls __init__
     = Raise (RuntimeError "Model is not trained. Train model first.").
Proof.
  unfold forecast. destruct (spec_model_calc cls df) as [dfc [df'|e]]; cbn [snd bind].
  - split; [|split]; [| |reflexivity].
    + destruct (getitem "is_moving" df'); reflexivity.
    + intros df'' E H. injection E as <-. now rewrite (getitem_ok _ _ H).
  - split; [reflexivity|]. split; [discriminate|reflexivity].
Qed.

Lemma masked_set_map {A : Type} (m : A -> bool) (x d : float) (l : list A) :
  masked_set (map m l) x (repeat d (length l)) = map (fun r => if m r then x else d) l.
Proof.
  unfold masked_set. induction l as [|r t IH]; simpl; [reflexivity|]. now rewrite IH.
Qed.

Lemma masked_iadd_map {A : Type} (m : A -> bool) (f g : A -> float) (l : list A) :
  masked_iadd (map m l) (map f l) (map g l)
  = map (fun r => if m r then f r + g r else f r) l.
Proof. induction l as [|r t IH]; simpl; [reflexivity|]. now rewrite IH. Qed.

Lemma skipn_cons {A : Type} (n : nat) (l : list A) (x : A) :
  nth_error l n = Some x -> skipn n l = x :: skipn (S n) l.
Proof.
  revert l; induction n as [|n IH]; intros [|y t] E; simpl in *; try discriminate.
  - now injection E as ->.
  - now apply IH.
Qed.

(** The loop of [forecast], from the [i]-th predictor on: every moving
    record has gathered the remaining products, every other record keeps
    the default. *)
Lemma forecast_loop (self : Model) (df : DataFrame) (b : list float) (d : float)
    (ps : list string) (i : nat) (acc : row -> float) :
  _beta self = Some b ->
  forallb (fun p => has_column p df) ps = true ->
  (i + 1 + length ps <= length b)%nat ->
  for_enumerate (add_predictor self df (map (moving true) (rows df))) i ps
    (map (fun r => if moving true r then acc r else d) (rows df))
  = Ok (map (fun r => if moving true r
                      then fold_left (term r) (combine ps (skipn (i + 1) b)) (acc r)
                      else d) (rows df)).
Proof.
  intros B. revert i acc. induction ps as [|p ps IH]; intros i acc H L.
  - reflexivity.
  - cbn [forallb] in H. apply andb_prop in H as [Hp Hps]. cbn [length] in L.
    cbn [for_enumerate]. unfold add_predictor at 1.
    rewrite (floats_ok _ _ Hp). unfold beta. rewrite B. cbn [bind].
    destruct (nth_error b (i + 1)) as [bi|] eqn:N.
    2:{ apply nth_error_None in N. lia. }
    unfold item. rewrite N. cbn [bind].
    rewrite <- (map_map snd (fun r => to_float (cell p r))). fold (rows df).
    rewrite map_map.
    rewrite (masked_iadd_map (moving true)
               (fun r => if moving true r then acc r else d)
               (fun r => to_float (cell p r) * bi)).
    rewrite (map_ext _ (fun r => if moving true r
                                 then (fun r => acc r + to_float (cell p r) * bi) r else d)).
    2:{ intros r. now destruct (moving true r). }
    rewrite (IH (S i) (fun r => acc r + to_float (cell p r) * bi) Hps) by lia.
    f_equal. apply map_ext. intros r. destruct (moving true r); [|reflexivity].
    rewrite (skipn_cons _ _ _ N). replace (S (i + 1)) with (S i + 1)%nat by lia.
    reflexivity.
Qed.

(** A record cannot be moving and stationary at once. *)
Lemma eqb_zero_one (x : float) : (x =? 0) = true -> (x =? 1) = false.
Proof.
  rewrite !FloatAxioms.eqb_spec.
  assert (Z0 : Prim2SF 0 = S754_zero false) by reflexivity.
  assert (Z1 : exists m e, Prim2SF 1 = S754_finite false m e) by (do 2 eexists; reflexivity).
  destruct Z1 as (m1 & e1 & Z1). rewrite Z0, Z1.
  destruct (Prim2SF x) as [s|s| |s m e]; simpl; try discriminate; try reflexivity.
  - destruct s; discriminate.
  - destruct s; discriminate.
Qed.

Lemma stationary_not_moving (r : row) : moving false r = true -> moving true r = false.
Proof. unfold moving, eq_bool. cbn [to_float]. apply eqb_zero_one. Qed.

(** C4. For a trained model (coefficients [b], one per predictor after the
    intercept, and baseline [d]) and a record set whose feature derivation
    succeeds and yields the [is_moving] and predictor columns, [forecast]
    returns a series on the index of the derived set with one entry per
    derived record: the inverse power transform of the linear predictor
    [b[0] + sum of feature_i * b[i + 1]] where [is_moving == True], and of
    the baseline [d] elsewhere, in particular where [is_moving == False]. *)
Theorem forecast_rows (df df' : DataFrame) (self : Model) (b : list float) (d : float) :
  snd (spec_model_calc cls df) = Ok df' ->
  has_column "is_moving" df' = true ->
  forallb (fun p => has_column p df') (predictors_list cls) = true ->
  _beta self = Some b ->
  _default_usage self = Some d ->
  length b = S (length (predictors_list cls)) ->
  exists out,
    snd (forecast cls df self) = Ok out
    /\ s_index out = index df'
    /\ length (s_values out) = nrows df'
    /\ s_values out
       = map (fun r => retransform_power cls
                         (if moving true r then linear_predictor cls b r else d)) (rows df')
    /\ (forall j r, nth_error (rows df') j = Some r ->
        (moving true r = true ->
         nth_error (s_values out) j = Some (retransform_power cls (linear_predictor cls b r)))
        /\ (moving false r = true ->
            nth_error (s_values out) j = Some (retransform_power cls d))).
Proof.
  intros S HM HP B D L. unfold forecast.
  destruct (spec_model_calc cls df) as [dfc r]. cbn [snd] in *. subst r. cbn [bind].
  rewrite (getitem_ok _ _ HM). cbn [bind]. unfold beta at 1. rewrite B. cbn [bind].
  destruct b as [|b0 b']; [discriminate|]. cbn [item nth_error bind].
  rewrite D. unfold full, nrows.
  assert (EM : map (eq_bool true) (map (fun r : Z * row => cell "is_moving" (snd r)) (records df'))
               = map (moving true) (rows df')).
  { unfold rows. rewrite !map_map. reflexivity. }
  rewrite EM.
  replace (length (records df')) with (length (rows df')) by (unfold rows; apply length_map).
  rewrite (masked_set_map (moving true) b0 d (rows df')).
  rewrite (forecast_loop self df' (b0 :: b') d _ 0 (fun _ => b0) B HP) by (simpl in *; lia).
  cbn [bind]. eexists. split; [reflexivity|]. cbn [s_index s_values].
  split; [reflexivity|]. split.
  { rewrite !length_map. unfold rows. now rewrite length_map. }
  assert (V : forall A (f : A -> float) (l : list A) j x,
             nth_error l j = Some x -> nth_error (map f l) j = Some (f x)).
  { intros A f l j x E. now rewrite nth_error_map, E. }
  split.
  - rewrite map_map. apply map_ext. intros r. reflexivity.
  - intros j r E. rewrite map_map. split; intros M.
    + rewrite (V _ _ _ _ _ E). now rewrite M.
    + rewrite (V _ _ _ _ _ E). now rewrite (stationary_not_moving _ M).
Qed.

End ForecastFacts.

Lemma untrained_model_fails_parked :
  snd (forecast (BaseLineModel 0.17) parked __init__)
  = Raise (RuntimeError "Beta is not initialized. Train model first.")
  /\ snd (forecast (FinalModel unit_pow 1) hop __init__)
     = Raise (RuntimeError "Beta is not initialized. Train model first.")
  /\ print_training_results (FinalModel unit_pow 1) __init__
     = Raise (RuntimeError "Model is not trained. Train model first.").
Proof.
  split; [|split].
  - eapply (proj1 (proj2 (untrained_model_fails (BaseLineModel 0.17) parked)));
      reflexivity.
  - eapply (proj1 (proj2 (untrained_model_fails (FinalModel unit_pow 1) hop)));
      reflexivity.
  - apply (proj2 (proj2 (untrained_model_fails (FinalModel unit_pow 1) hop))).
Defined.

Lemma forecast_rows_climb :
  (exists out,
     snd (forecast (FinalModel unit_pow 1) hop climb_model) = Ok out
     /\ s_index out = [1; 2; 0]%Z
     /\ s_values out
        = [unit_pow (2 + 1 * 1.5 + 1 * 2.5 + 5 * 3 + 25 * -1 + 1 * 5) 1.5;
           unit_pow (2 + 1 * 1.5 + 1 * 2.5 + 0 * 3 + 25 * -1 + 4 * 5) 1.5;
           unit_pow 0 1.5]%float
     /\ s_values out = [1; 1; 0]%float)
  /\ (exists out,
       snd (forecast (BaseLineModel 0.17) cruise cruise_model) = Ok out
       /\ s_index out = [0; 1; 2]%Z
       /\ s_values out = [3; 7; 7]%float)
  /\ (exists out,
       snd (forecast (BaseLineModel 0.17) parked parked_model) = Ok out
       /\ s_index out = [0; 1; 2]%Z
       /\ s_values out = [4.5; 4.5; 4.5]%float).
Proof.
  split; [|split].
  - destruct (forecast_rows (FinalModel unit_pow 1) hop
                (fix_indexes (fst (FinalModel_spec_model_calc unit_pow 1 hop)))
                climb_model [2; 1.5; 2.5; 3; -1; 5]%float 0%float)
      as (out & Hrun & Hi & _ & Hv & _); try reflexivity.
    exists out. split; [exact Hrun|]. rewrite Hi, Hv. repeat split; reflexivity.
  - destruct (forecast_rows (BaseLineModel 0.17) cruise cruise cruise_model
                [7%float] 3%float)
      as (out & Hrun & Hi & _ & Hv & _); try reflexivity.
    exists out. split; [exact Hrun|]. rewrite Hi, Hv. split; reflexivity.
  - destruct (forecast_rows (BaseLineModel 0.17) parked parked parked_model
                [0%float] 4.5%float)
      as (out & Hrun & Hi & _ & Hv & _); try reflexivity.
    exists out. split; [exact Hrun|]. rewrite Hi, Hv. split; reflexivity.
Defined.

(** ** Merging record sets *)


Lemma all_rows_app (a b : list DataFrame) : all_rows (a ++ b) = all_rows a ++ all_rows b.
Proof. unfold all_rows. now rewrite flat_map_app, map_app. Qed.

Lemma mapM_app {A B : Type} (f : A -> result B) (l1 l2 : list A) :
  mapM f (l1 ++ l2) = (do a <- mapM f l1 ; do b <- mapM f l2 ; Ok (a ++ b)).
Proof.
  induction l1 as [|x t IH]; simpl.
  - destruct (mapM f l2); reflexivity.
  - destruct (f x); [|reflexivity]. simpl. rewrite IH.
    destruct (mapM f t); [|reflexivity]. simpl.
    destruct (mapM f l2); reflexivity.
Qed.

Lemma add_names_keeps (c : string) (cs acc : list string) :
  existsb (String.eqb c) acc = true -> existsb (String.eqb c) (add_names acc cs) = true.
Proof.
  unfold add_names. revert acc. induction cs as [|c0 cs IH]; intros acc H; simpl.
  - exact H.
  - apply IH. destruct (existsb (String.eqb c0) acc); [exact H|].
    rewrite existsb_app, H. reflexivity.
Qed.

Lemma union_names_keeps (c : string) (ts es : list DataFrame) :
  existsb (String.eqb c) (union_names ts) = true ->
  existsb (String.eqb c) (union_names (ts ++ es)) = true.
Proof.
  unfold union_names. rewrite fold_left_app. generalize (fold_left
    (fun a df => add_names a (columns df)) ts []).
  induction es as [|e es IH]; intros acc H; simpl; [exact H|].
  apply IH. now apply add_names_keeps.
Qed.

Lemma concat_rows (objs : list DataFrame) (dfs : DataFrame) :
  concat objs = Ok dfs ->
  columns dfs = union_names objs
  /\ rows dfs = map (reindex (union_names objs)) (all_rows objs).
Proof.
  destruct objs as [|o objs]; [discriminate|]. cbn [concat]. intros E. injection E as <-.
  split; [reflexivity|]. unfold rows, all_rows. cbn [records].
  now rewrite relabel_rows, !map_map.
Qed.

Lemma cell_reindex (c : string) (cols : list string) (r : row) :
  existsb (String.eqb c) cols = true -> cell c (reindex cols r) = cell c r.
Proof.
  unfold reindex. induction cols as [|c0 cols IH]; simpl; [discriminate|].
  intros H. unfold cell at 1. simpl.
  destruct (String.eqb c c0) eqn:E.
  - apply String.eqb_eq in E. now subst.
  - simpl in H. apply IH in H. exact H.
Qed.

Lemma filter_map_comm {A B : Type} (p : B -> bool) (f : A -> B) (l : list A) :
  filter p (map f l) = map f (filter (fun x => p (f x)) l).
Proof.
  induction l as [|x t IH]; simpl; [reflexivity|].
  destruct (p (f x)); simpl; now rewrite IH.
Qed.

Lemma filter_none {A : Type} (p : A -> bool) (l : list A) :
  Forall (fun x => p x = false) l -> filter p l = [].
Proof. induction 1 as [|x t H _ IH]; simpl; [reflexivity|]. now rewrite H. Qed.

Lemma filter_all {A : Type} (p : A -> bool) (l : list A) :
  Forall (fun x => p x = true) l -> filter p l = l.
Proof. induction 1 as [|x t H _ IH]; simpl; [reflexivity|]. now rewrite H, IH. Qed.

Section MergedViews.
Local Open Scope float_scope.
Variable cls : APredictiveModel.

(** What [train] reads of a record is the same under any reindexing that
    keeps the columns read. *)
Lemma view_reindex (cols : list string) (r : row) :
  existsb (String.eqb "voltage") cols = true ->
  existsb (String.eqb "current") cols = true ->
  existsb (String.eqb "is_moving") cols = true ->
  forallb (fun p => existsb (String.eqb p) cols || String.eqb p "power_indicator")
    (predictors_list cls) = true ->
  view cls (reindex cols r) = view cls r.
Proof.
  intros HV HC HM HP. unfold view.
  assert (I : indicator cls (reindex cols r) = indicator cls r).
  { unfold indicator. now rewrite !cell_reindex. }
  assert (X : design_row cls (with_indicator cls (reindex cols r))
              = design_row cls (with_indicator cls r)).
  { unfold design_row. f_equal.
    induction (predictors_list cls) as [|p ps IH]; [reflexivity|].
    cbn [forallb] in HP. apply andb_prop in HP as [Hp Hps]. cbn [map].
    rewrite (IH Hps). f_equal. unfold with_indicator. rewrite I.
    destruct (String.eqb p "power_indicator") eqn:E.
    - apply String.eqb_eq in E. subst p. now rewrite !cell_assign_same.
    - rewrite !cell_assign_other by exact E. rewrite orb_false_r in Hp.
      now rewrite cell_reindex. }
  unfold moving. now rewrite (cell_reindex _ _ _ HM), I, X.
Qed.

Lemma design_view (dfs : DataFrame) :
  design cls dfs = map (fun r => snd (view cls r)) (filter (fun r => fst (fst (fst (view cls r)))) (rows dfs)).
Proof.
  unfold design. rewrite filter_map_stable by apply moving_with_indicator.
  rewrite map_map. reflexivity.
Qed.

Lemma targets_view (dfs : DataFrame) :
  targets cls dfs
  = map (fun r => snd (fst (view cls r))) (filter (fun r => fst (fst (fst (view cls r)))) (rows dfs)).
Proof. reflexivity. Qed.

Lemma stationary_view (dfs : DataFrame) :
  stationary_indicators cls dfs
  = map (fun r => snd (fst (view cls r))) (filter (fun r => snd (fst (fst (view cls r)))) (rows dfs)).
Proof. reflexivity. Qed.

End MergedViews.

Section PhaseSplit.
Local Open Scope float_scope.
Variable gelsd : list (list float) -> list float -> result (list float).
Variable cls : APredictiveModel.

Lemma trainable_columns (dfs : DataFrame) :
  trainable cls dfs = true ->
  existsb (String.eqb "voltage") (columns dfs) = true
  /\ existsb (String.eqb "current") (columns dfs) = true
  /\ existsb (String.eqb "is_moving") (columns dfs) = true
  /\ forallb (fun p => existsb (String.eqb p) (columns dfs) || String.eqb p "power_indicator")
       (predictors_list cls) = true.
Proof.
  unfold trainable, has_column. intros T.
  apply andb_prop in T as [T HP]. apply andb_prop in T as [T HM].
  apply andb_prop in T as [HV HC]. auto.
Qed.

(** The design matrix, the targets and the stationary indicators of a
    merged frame, read off the records of the frames merged. *)
Lemma merged_views (objs : list DataFrame) (dfs : DataFrame) :
  concat objs = Ok dfs -> trainable cls dfs = true ->
  design cls dfs
  = map (fun r => snd (view cls r))
      (filter (fun r => fst (fst (fst (view cls r)))) (all_rows objs))
  /\ targets cls dfs
     = map (fun r => snd (fst (view cls r)))
         (filter (fun r => fst (fst (fst (view cls r)))) (all_rows objs))
  /\ stationary_indicators cls dfs
     = map (fun r => snd (fst (view cls r)))
         (filter (fun r => snd (fst (fst (view cls r)))) (all_rows objs)).
Proof.
  intros C T. apply concat_rows in C as [Cc Cr].
  apply trainable_columns in T as (HV & HC & HM & HP). rewrite Cc in *.
  assert (V : forall r, view cls (reindex (union_names objs) r) = view cls r).
  { intros r. now apply view_reindex. }
  rewrite design_view, targets_view, stationary_view, Cr.
  rewrite !filter_map_comm, !map_map.
  repeat split.
  - erewrite filter_ext by (intros r; rewrite V; reflexivity).
    apply map_ext. intros r. now rewrite V.
  - erewrite filter_ext by (intros r; rewrite V; reflexivity).
    apply map_ext. intros r. now rewrite V.
  - erewrite filter_ext by (intros r; rewrite V; reflexivity).
    apply map_ext. intros r. now rewrite V.
Qed.

Lemma trainable_enlarged (ts es : list DataFrame) (dfs1 dfs2 : DataFrame) :
  concat ts = Ok dfs1 -> concat (ts ++ es) = Ok dfs2 ->
  trainable cls dfs1 = true -> trainable cls dfs2 = true.
Proof.
  intros C1 C2 T. apply concat_rows in C1 as [C1 _]. apply concat_rows in C2 as [C2 _].
  apply trainable_columns in T as (HV & HC & HM & HP). rewrite C1 in *.
  unfold trainable, has_column. rewrite C2.
  rewrite !union_names_keeps by assumption. cbn [andb].
  clear HV HC HM. induction (predictors_list cls) as [|p ps IH]; [reflexivity|].
  cbn [forallb] in *. apply andb_prop in HP as [Hp Hps]. rewrite (IH Hps), andb_true_r.
  apply orb_prop in Hp as [Hp|Hp]; [|now rewrite Hp, orb_true_r].
  now rewrite union_names_keeps.
Qed.

(** C6. Let [train] complete on a list of record sets, and let further
    record sets be appended whose derived records are all stationary
    ([is_moving == False]).  Then [train] on the longer list completes
    with the same coefficient vector, and its stationary baseline is the
    mean over the enlarged stationary subset: the stationary indicators of
    the first merge followed by those of the appended records. *)
Theorem phase_split_independence
    (dfs_list extra es : list DataFrame) (self self1 : Model) :
  train gelsd cls dfs_list self = (self1, Ok tt) ->
  mapM (fun df => snd (spec_model_calc cls df)) extra = Ok es ->
  Forall (fun r => moving false r = true) (all_rows es) ->
  exists self2 ts dfs1 dfs2,
    train gelsd cls (dfs_list ++ extra) self = (self2, Ok tt)
    /\ _beta self2 = _beta self1
    /\ mapM (fun df => snd (spec_model_calc cls df)) dfs_list = Ok ts
    /\ concat ts = Ok dfs1
    /\ concat (ts ++ es) = Ok dfs2
    /\ _default_usage self1 = Some (nanmean (stationary_indicators cls dfs1))
    /\ _default_usage self2 = Some (nanmean (stationary_indicators cls dfs2))
    /\ stationary_indicators cls dfs2
       = stationary_indicators cls dfs1 ++ map (indicator cls) (all_rows es).
Proof.
  intros H1 D2 St.
  apply train_ok_inv in H1 as (ts & dfs1 & b & D1 & C1 & T1 & L1 & ->).
  assert (N : ts ++ es <> []).
  { destruct ts; [discriminate C1|discriminate]. }
  destruct (concat_nonempty _ N) as (dfs2 & C2).
  pose proof (trainable_enlarged _ _ _ _ C1 C2 T1) as T2.
  destruct (merged_views _ _ C1 T1) as (X1 & Y1 & Z1).
  destruct (merged_views _ _ C2 T2) as (X2 & Y2 & Z2).
  rewrite all_rows_app, filter_app, map_app in X2, Y2, Z2.
  assert (M : filter (fun r => fst (fst (fst (view cls r)))) (all_rows es) = []).
  { apply filter_none. eapply Forall_impl; [|exact St].
    intros r. apply stationary_not_moving. }
  rewrite M in X2, Y2. cbn [map] in X2, Y2. rewrite app_nil_r in X2, Y2.
  rewrite <- X1 in X2. rewrite <- Y1 in Y2.
  rewrite (filter_all (fun r => snd (fst (fst (view cls r)))) (all_rows es)) in Z2
    by exact St.
  rewrite <- Z1 in Z2.
  assert (D : mapM (fun df => snd (spec_model_calc cls df)) (dfs_list ++ extra)
              = Ok (ts ++ es)).
  { now rewrite mapM_app, D1, D2. }
  exists {| _beta := Some b;
            _default_usage := Some (nanmean (stationary_indicators cls dfs2)) |},
         ts, dfs1, dfs2.
  rewrite (train_eq gelsd cls _ _ _ self D C2 T2), X2, Y2, L1.
  repeat split; try assumption.
Qed.

End PhaseSplit.

Lemma phase_split_independence_cruise :
  exists self2,
    train mean_solver (BaseLineModel 0.17) [cruise] __init__
    = ({| _beta := Some [8%float]; _default_usage := Some 2%float |}, Ok tt)
    /\ train mean_solver (BaseLineModel 0.17) ([cruise] ++ [parked]) __init__ = (self2, Ok tt)
    /\ _beta self2 = Some [8%float]
    /\ _default_usage self2 = Some 3.875%float.
Proof.
  destruct (phase_split_independence mean_solver (BaseLineModel 0.17)
              [cruise] [parked] [parked] __init__
              {| _beta := Some [8%float]; _default_usage := Some 2%float |})
    as (self2 & ts & dfs1 & dfs2 & Hrun & Hb & _ & _ & _ & _ & _ & _).
  - reflexivity.
  - reflexivity.
  - repeat constructor.
  - exists self2. split; [reflexivity|]. split; [exact Hrun|]. split; [exact Hb|].
    assert (E : train mean_solver (BaseLineModel 0.17) ([cruise] ++ [parked]) __init__
                = ({| _beta := Some [8%float]; _default_usage := Some 3.875%float |}, Ok tt))
      by reflexivity.
    rewrite E in Hrun. now injection Hrun as <-.
Defined.

(** ** The reference variant *)

Lemma has_column_setitem_same (c : string) (s : list float) (df : DataFrame) :
  has_column c (setitem c s df) = true.
Proof. rewrite has_column_setitem, String.eqb_refl. apply orb_true_r. Qed.

Lemma has_column_setitem_keep (c c' : string) (s : list float) (df : DataFrame) :
  has_column c df = true -> has_column c (setitem c' s df) = true.
Proof. intros H. now rewrite has_column_setitem, H. Qed.

Create HintDb cols.
#[local] Hint Resolve has_column_setitem_same has_column_setitem_keep : cols.

Lemma cells_are_set (c : string) (s : list float) (rs : list (Z * row)) :
  cells_are c s (set_cells c s rs).
Proof.
  revert s; induction rs as [|[l r] t IH]; intros s; simpl; [exact I|].
  split; [apply lookup_assign_same|apply IH].
Qed.

Lemma cells_are_keep (c c' : string) (s s' : list float) (rs : list (Z * row)) :
  String.eqb c c' = false -> cells_are c s rs -> cells_are c s (set_cells c' s' rs).
Proof.
  intros N. revert s s'; induction rs as [|[l r] t IH]; intros s s'; simpl; [auto|].
  intros [H Ht]. split; [now rewrite lookup_assign_other|now apply IH].
Qed.

Lemma assign_noop (c : string) (v : value) (r : row) :
  lookup c r = Some v -> assign c v r = r.
Proof.
  induction r as [|[d w] t IH]; simpl; [discriminate|].
  destruct (String.eqb c d) eqn:E.
  - intros H. now injection H as ->.
  - intros H. now rewrite IH.
Qed.

(** Storing a column the frame already holds with these cells changes
    nothing. *)
Lemma setitem_noop (c : string) (s : list float) (df : DataFrame) :
  has_column c df = true -> cells_are c s (records df) -> setitem c s df = df.
Proof.
  intros H C. destruct df as [cols rs]. unfold setitem. cbn [columns records] in *.
  rewrite H. f_equal. clear H.
  revert s C; induction rs as [|[l r] t IH]; intros s C; simpl in *; [reflexivity|].
  destruct C as [C Ct]. now rewrite (assign_noop _ _ _ C), (IH _ Ct).
Qed.

Lemma store_noop (c : string) (e : DataFrame -> result (list float)) (df : DataFrame)
    (s : list float) :
  e df = Ok s -> has_column c df = true -> cells_are c s (records df) ->
  store c e df = (df, Ok tt).
Proof. intros E H C. unfold store. rewrite E. now rewrite setitem_noop. Qed.

Section ReferenceVariant.
Local Open Scope float_scope.
Variable pow : float -> float -> float.
Variable delta_time : float.

(** Each right-hand side reads two columns at most, and does not see an
    assignment to another column. *)
Ltac unseen := intros; cbv delta [xy_air_speed xy_air_acceleration z_acceleration force_z
  force_xy velocity_xy_factor velocity_z_factor] beta;
  rewrite !floats_setitem_other by assumption; reflexivity.

Lemma xy_air_speed_unseen c s df :
  String.eqb "vx_anemometer" c = false -> String.eqb "vy_anemometer" c = false ->
  xy_air_speed (setitem c s df) = xy_air_speed df.
Proof. unseen. Qed.

Lemma xy_air_acceleration_unseen c s df :
  String.eqb "vx_anemometer" c = false -> String.eqb "vy_anemometer" c = false ->
  xy_air_acceleration delta_time (setitem c s df) = xy_air_acceleration delta_time df.
Proof. unseen. Qed.

Lemma z_acceleration_unseen c s df :
  String.eqb "vz_imu" c = false ->
  z_acceleration delta_time (setitem c s df) = z_acceleration delta_time df.
Proof. unseen. Qed.

Lemma force_z_unseen c s df :
  String.eqb "z_acceleration" c = false -> String.eqb "total_mass" c = false ->
  force_z (setitem c s df) = force_z df.
Proof. unseen. Qed.

Lemma force_xy_unseen c s df :
  String.eqb "xy_air_acceleration" c = false -> String.eqb "total_mass" c = false ->
  force_xy (setitem c s df) = force_xy df.
Proof. unseen. Qed.

Lemma velocity_xy_factor_unseen c s df :
  String.eqb "xy_air_speed" c = false -> String.eqb "total_mass" c = false ->
  velocity_xy_factor pow (setitem c s df) = velocity_xy_factor pow df.
Proof. unseen. Qed.

Lemma velocity_z_factor_unseen c s df :
  String.eqb "vz_imu" c = false -> String.eqb "total_mass" c = false ->
  velocity_z_factor pow (setitem c s df) = velocity_z_factor pow df.
Proof. unseen. Qed.

Ltac strip :=
  rewrite ?xy_air_speed_unseen, ?xy_air_acceleration_unseen, ?z_acceleration_unseen,
    ?force_z_unseen, ?force_xy_unseen, ?velocity_xy_factor_unseen,
    ?velocity_z_factor_unseen by reflexivity.

Ltac strip_in H :=
  rewrite ?xy_air_speed_unseen, ?xy_air_acceleration_unseen, ?z_acceleration_unseen,
    ?force_z_unseen, ?force_xy_unseen, ?velocity_xy_factor_unseen,
    ?velocity_z_factor_unseen in H by reflexivity.

(** A run of the seven assignments that raises nothing: the series
    stored, each computed from the frame as it stood, and the frame left to
    the caller. *)
Lemma derive_features_inv (df df' : DataFrame) :
  derive_features pow delta_time df = (df', Ok tt) ->
  exists s1 s2 s3 s4 s5 s6 s7,
    xy_air_speed df = Ok s1
    /\ xy_air_acceleration delta_time df = Ok s2
    /\ z_acceleration delta_time df = Ok s3
    /\ force_z (setitem "z_acceleration" s3
                  (setitem "xy_air_acceleration" s2 (setitem "xy_air_speed" s1 df))) = Ok s4
    /\ force_xy (setitem "xy_air_acceleration" s2 (setitem "xy_air_speed" s1 df)) = Ok s5
    /\ velocity_xy_factor pow (setitem "xy_air_speed" s1 df) = Ok s6
    /\ velocity_z_factor pow df = Ok s7
    /\ df' = setitem "velocity_z_factor" s7 (setitem "velocity_xy_factor" s6
               (setitem "force_xy" s5 (setitem "force_z" s4
                 (setitem "z_acceleration" s3 (setitem "xy_air_acceleration" s2
                   (setitem "xy_air_speed" s1 df)))))).
Proof.
  cbv delta [derive_features andthen store] beta. intros H.
  destruct (xy_air_speed df) as [s1|] eqn:E1; [|discriminate H]. cbv iota beta in H.
  destruct (xy_air_acceleration delta_time _) as [s2|] eqn:E2; [|discriminate H].
  cbv iota beta in H.
  destruct (z_acceleration delta_time _) as [s3|] eqn:E3; [|discriminate H].
  cbv iota beta in H.
  destruct (force_z _) as [s4|] eqn:E4; [|discriminate H]. cbv iota beta in H.
  destruct (force_xy _) as [s5|] eqn:E5; [|discriminate H]. cbv iota beta in H.
  destruct (velocity_xy_factor pow _) as [s6|] eqn:E6; [|discriminate H].
  cbv iota beta in H.
  destruct (velocity_z_factor pow _) as [s7|] eqn:E7; [|discriminate H].
  injection H as <-.
  strip_in E2. strip_in E3. strip_in E4. strip_in E5. strip_in E6. strip_in E7.
  exists s1, s2, s3, s4, s5, s6, s7. repeat split; assumption.
Qed.

Ltac held := cbn [records setitem];
  repeat (apply cells_are_keep; [reflexivity|]); apply cells_are_set.

(** The seven assignments, made again on the frame they left: every
    column is recomputed to the cells it already holds. *)
Lemma derive_features_again (df df' : DataFrame) :
  derive_features pow delta_time df = (df', Ok tt) ->
  derive_features pow delta_time df' = (df', Ok tt).
Proof.
  intros H. apply derive_features_inv in H
    as (s1 & s2 & s3 & s4 & s5 & s6 & s7 & E1 & E2 & E3 & E4 & E5 & E6 & E7 & ->).
  cbv delta [derive_features andthen] beta.
  rewrite (store_noop "xy_air_speed" _ _ s1);
    [|strip; exact E1|auto 10 with cols|held]. cbv iota beta.
  rewrite (store_noop "xy_air_acceleration" _ _ s2);
    [|strip; exact E2|auto 10 with cols|held]. cbv iota beta.
  rewrite (store_noop "z_acceleration" _ _ s3);
    [|strip; exact E3|auto 10 with cols|held]. cbv iota beta.
  rewrite (store_noop "force_z" _ _ s4);
    [|strip; exact E4|auto 10 with cols|held]. cbv iota beta.
  rewrite (store_noop "force_xy" _ _ s5);
    [|strip; exact E5|auto 10 with cols|held]. cbv iota beta.
  rewrite (store_noop "velocity_xy_factor" _ _ s6);
    [|strip; exact E6|auto 10 with cols|held]. cbv iota beta.
  apply (store_noop "velocity_z_factor" _ _ s7);
    [strip; exact E7|auto 10 with cols|held].
Qed.

(** The columns the assignments do not fill are left as they were. *)
Lemma derive_features_keeps (df df' : DataFrame) (c : string) :
  derive_features pow delta_time df = (df', Ok tt) ->
  existsb (String.eqb c) derived_columns = false ->
  getitem c df' = getitem c df.
Proof.
  intros H N. apply derive_features_inv in H
    as (s1 & s2 & s3 & s4 & s5 & s6 & s7 & _ & _ & _ & _ & _ & _ & _ & ->).
  cbn [existsb derived_columns] in N.
  repeat (apply orb_false_elim in N as [? N]).
  now rewrite !getitem_setitem_other by assumption.
Qed.

Lemma derive_features_columns (df df' : DataFrame) (c : string) :
  derive_features pow delta_time df = (df', Ok tt) ->
  has_column c df' = has_column c df || existsb (String.eqb c) derived_columns.
Proof.
  intros H. apply derive_features_inv in H
    as (s1 & s2 & s3 & s4 & s5 & s6 & s7 & _ & _ & _ & _ & _ & _ & _ & ->).
  rewrite !has_column_setitem. cbn [existsb derived_columns].
  rewrite orb_false_r, <- !orb_assoc. reflexivity.
Qed.

Ltac readable := intros;
  cbv delta [xy_air_speed xy_air_acceleration z_acceleration force_z
    force_xy velocity_xy_factor velocity_z_factor] beta;
  rewrite ?floats_ok by assumption; cbn [bind]; eexists; reflexivity.

Lemma xy_air_speed_ok df :
  has_column "vx_anemometer" df = true -> has_column "vy_anemometer" df = true ->
  exists s, xy_air_speed df = Ok s.
Proof. readable. Qed.

Lemma xy_air_acceleration_ok df :
  has_column "vx_anemometer" df = true -> has_column "vy_anemometer" df = true ->
  exists s, xy_air_acceleration delta_time df = Ok s.
Proof. readable. Qed.

Lemma z_acceleration_ok df :
  has_column "vz_imu" df = true -> exists s, z_acceleration delta_time df = Ok s.
Proof. readable. Qed.

Lemma force_z_ok df :
  has_column "z_acceleration" df = true -> has_column "total_mass" df = true ->
  exists s, force_z df = Ok s.
Proof. readable. Qed.

Lemma force_xy_ok df :
  has_column "xy_air_acceleration" df = true -> has_column "total_mass" df = true ->
  exists s, force_xy df = Ok s.
Proof. readable. Qed.

Lemma velocity_xy_factor_ok df :
  has_column "xy_air_speed" df = true -> has_column "total_mass" df = true ->
  exists s, velocity_xy_factor pow df = Ok s.
Proof. readable. Qed.

Lemma velocity_z_factor_ok df :
  has_column "vz_imu" df = true -> has_column "total_mass" df = true ->
  exists s, velocity_z_factor pow df = Ok s.
Proof. readable. Qed.

(** With the four raw columns it reads, the feature derivation raises
    nothing. *)
Lemma derive_features_ok (df : DataFrame) :
  has_column "vx_anemometer" df = true -> has_column "vy_anemometer" df = true ->
  has_column "vz_imu" df = true -> has_column "total_mass" df = true ->
  exists df', derive_features pow delta_time df = (df', Ok tt).
Proof.
  intros Hx Hy Hz Hm. cbv delta [derive_features andthen store] beta.
  destruct (xy_air_speed_ok df) as (s1 & E1); auto. rewrite E1. cbv iota beta.
  destruct (xy_air_acceleration_ok (setitem "xy_air_speed" s1 df)) as (s2 & E2);
    auto with cols. rewrite E2. cbv iota beta.
  match goal with |- context [z_acceleration _ ?d] =>
    destruct (z_acceleration_ok d) as (s3 & E3); auto 10 with cols end.
  rewrite E3. cbv iota beta.
  match goal with |- context [force_z ?d] =>
    destruct (force_z_ok d) as (s4 & E4); auto 10 with cols end.
  rewrite E4. cbv iota beta.
  match goal with |- context [force_xy ?d] =>
    destruct (force_xy_ok d) as (s5 & E5); auto 10 with cols end.
  rewrite E5. cbv iota beta.
  match goal with |- context [velocity_xy_factor _ ?d] =>
    destruct (velocity_xy_factor_ok d) as (s6 & E6); auto 10 with cols end.
  rewrite E6. cbv iota beta.
  match goal with |- context [velocity_z_factor _ ?d] =>
    destruct (velocity_z_factor_ok d) as (s7 & E7); auto 10 with cols end.
  rewrite E7. eauto.
Qed.

Lemma nan_div (x : float) : is_nan (nan / x) = true.
Proof.
  unfold is_nan. rewrite FloatAxioms.eqb_spec, FloatAxioms.div_spec.
  assert (N : Prim2SF nan = S754_nan) by reflexivity. rewrite N.
  destruct (Prim2SF x); reflexivity.
Qed.

Lemma has_column_In (c : string) (df : DataFrame) :
  has_column c df = true -> In c (columns df).
Proof.
  unfold has_column. intros H. apply existsb_exists in H as (x & I & E).
  apply String.eqb_eq in E. now subst.
Qed.

(** The first record of a flight has no predecessor to difference with:
    its vertical acceleration is missing, whatever the time step. *)
Lemma first_record_missing (df df' : DataFrame) (r0 : Z * row) (rest : list (Z * row)) :
  derive_features pow delta_time df = (df', Ok tt) ->
  records df' = r0 :: rest ->
  has_na (columns df') r0 = true.
Proof.
  intros H R. pose proof (derive_features_columns df df' "z_acceleration" H) as HC.
  cbn [existsb derived_columns String.eqb Ascii.eqb Bool.eqb] in HC.
  rewrite orb_true_r in HC. apply has_column_In in HC.
  apply derive_features_inv in H
    as (s1 & s2 & s3 & s4 & s5 & s6 & s7 & _ & _ & E3 & _ & _ & _ & _ & ->).
  unfold has_na. apply existsb_exists. exists "z_acceleration"%string.
  split; [exact HC|].
  cbn [records setitem] in R.
  unfold z_acceleration in E3.
  destruct (floats "vz_imu" df) as [vz|] eqn:F; [|discriminate E3].
  cbn [bind] in E3. injection E3 as <-.
  apply floats_ok_inv in F as [_ ->].
  destruct (records df) as [|[l r] t] eqn:RD; [discriminate R|].
  cbn [set_cells map diff per_dt hd tl] in R. injection R as <- _.
  cbn [snd]. rewrite !cell_assign_other by reflexivity.
  rewrite cell_assign_same. cbn [isna]. apply nan_div.
Qed.

End ReferenceVariant.

Lemma shift_relabel (k from : Z) (rs : list (Z * row)) :
  map (fun r => ((fst r + k)%Z, snd r)) (relabel from rs) = relabel (from + k) rs.
Proof.
  revert from; induction rs as [|[l r] t IH]; intros from; simpl; [reflexivity|].
  rewrite IH. do 2 f_equal. lia.
Qed.

(** "Drop NaN values and fix indexes": the records without a missing cell
    keep their order and are labelled from 1; the record of zeros comes
    after them and is labelled 0. *)
Lemma fix_indexes_records (df : DataFrame) :
  columns (fix_indexes df) = columns df
  /\ records (fix_indexes df)
     = relabel 1 (filter (fun r => negb (has_na (columns df) r)) (records df))
       ++ [(0%Z, zero_row (columns df))].
Proof.
  split; [reflexivity|].
  unfold fix_indexes, index_add, loc_enlarge, reset_index, dropna. cbn [records columns].
  rewrite map_app, shift_relabel. reflexivity.
Qed.

(** After [reset_index] no record is labelled -1, so [df.loc[-1] = ...]
    adds a record. *)
Lemma reset_index_fresh (df : DataFrame) : ~ In (-1)%Z (index (reset_index df)).
Proof.
  unfold index, reset_index. cbn [records].
  rewrite (relabel_index 0). intros H. apply in_map_iff in H as (n & E & _). lia.
Qed.

Lemma cell_zero_row (c : string) (cols : list string) :
  existsb (String.eqb c) cols = true -> cell c (zero_row cols) = VFloat 0.
Proof.
  unfold zero_row. induction cols as [|c0 cols IH]; simpl; [discriminate|].
  intros H. unfold cell. simpl. destruct (String.eqb c c0); [reflexivity|].
  apply IH in H. exact H.
Qed.

(** The record of zeros belongs to the stationary phase. *)
Lemma zero_row_stationary (cols : list string) :
  existsb (String.eqb "is_moving") cols = true ->
  moving false (zero_row cols) = true /\ moving true (zero_row cols) = false.
Proof. intros H. unfold moving. rewrite (cell_zero_row _ _ H). split; reflexivity. Qed.

Section ReferenceClaims.
Local Open Scope float_scope.
Variable pow : float -> float -> float.
Variable delta_time : float.

(** C8 (as the code has it). On a record set with the four raw columns
    the reference variant reads, [spec_model_calc] succeeds.  It leaves the
    derived columns in the caller's frame [df'], and returns the records of
    [df'] without a missing cell, in their order and labelled [1 .. n],
    followed by one record whose cells are all zero, labelled 0: the
    synthetic record is the last of the returned set, not the first.  The
    first record of the flight is always among those dropped.  The record
    of zeros is stationary, so the phase split counts it there. *)
Theorem reference_feature_derivation (df : DataFrame) :
  has_column "vx_anemometer" df = true -> has_column "vy_anemometer" df = true ->
  has_column "vz_imu" df = true -> has_column "total_mass" df = true ->
  exists df' out kept,
    FinalModel_spec_model_calc pow delta_time df = (df', Ok out)
    /\ kept = filter (fun r => negb (has_na (columns df') r)) (records df')
    /\ (forall r0 rest, records df' = r0 :: rest ->
        kept = filter (fun r => negb (has_na (columns df') r)) rest)
    /\ columns out = columns df'
    /\ records out = relabel 1 kept ++ [(0%Z, zero_row (columns df'))]
    /\ index out = map Z.of_nat (seq 1 (length kept)) ++ [0%Z]
    /\ (forall c, has_column c df' = true -> cell c (zero_row (columns df')) = VFloat 0)
    /\ (has_column "is_moving" df = true ->
        moving false (zero_row (columns df')) = true
        /\ moving true (zero_row (columns df')) = false).
Proof.
  intros Hx Hy Hz Hm.
  destruct (derive_features_ok pow delta_time df Hx Hy Hz Hm) as (df' & D).
  exists df', (fix_indexes df'), (filter (fun r => negb (has_na (columns df') r)) (records df')).
  unfold FinalModel_spec_model_calc. rewrite D.
  destruct (fix_indexes_records df') as [FC FR].
  split; [reflexivity|]. split; [reflexivity|]. split.
  { intros r0 rest R. rewrite R. cbn [filter].
    rewrite (first_record_missing pow delta_time df df' r0 rest D R). reflexivity. }
  split; [exact FC|]. split; [exact FR|]. split.
  { unfold index. rewrite FR, map_app. cbn [map fst]. f_equal.
    apply (relabel_index 1). }
  split.
  { intros c H. now apply cell_zero_row. }
  intros HM. apply zero_row_stationary.
  change (has_column "is_moving" df' = true).
  rewrite (derive_features_columns pow delta_time df df' _ D), HM. reflexivity.
Qed.

(** C10 (as the code has it). [forecast] leaves the model as it was, for
    every variant.  The baseline variant leaves the caller's frame as it
    was.  The reference variant stores its seven derived columns in the
    caller's frame and leaves the other columns as they were; a second call
    with the same model on the same frame object, now holding the derived
    columns, returns the same series and changes the frame no further. *)
Theorem forecast_effects :
  (forall cls df self, fst (fst (forecast cls df self)) = self)
  /\ (forall dt df self, snd (fst (forecast (BaseLineModel dt) df self)) = df)
  /\ (forall df self self1 df1 out,
      forecast (FinalModel pow delta_time) df self = (self1, df1, Ok out) ->
      forecast (FinalModel pow delta_time) df1 self1 = (self1, df1, Ok out)
      /\ (forall c, existsb (String.eqb c) derived_columns = true -> has_column c df1 = true)
      /\ (forall c, existsb (String.eqb c) derived_columns = false ->
          getitem c df1 = getitem c df)).
Proof.
  split; [|split].
  - intros cls df self. unfold forecast. now destruct (spec_model_calc cls df).
  - intros dt df self. reflexivity.
  - intros df self self1 df1 out. unfold forecast.
    change (spec_model_calc (FinalModel pow delta_time))
      with (FinalModel_spec_model_calc pow delta_time).
    unfold FinalModel_spec_model_calc.
    destruct (derive_features pow delta_time df) as [df' [[]|e]] eqn:D.
    2:{ cbn [bind]. discriminate. }
    intros H. apply pair_equal_spec in H as [H H3].
    apply pair_equal_spec in H as [<- <-].
    rewrite (derive_features_again pow delta_time df df' D).
    split; [now rewrite H3|]. split.
    + intros c Hc. rewrite (derive_features_columns pow delta_time df df' c D), Hc.
      apply orb_true_r.
    + intros c Hc. now apply (derive_features_keeps pow delta_time df df' c D).
Qed.

End ReferenceClaims.

(** ** The claims on concrete flights *)

(** C1, as stated, fails: on flights without a moving record [train]
    completes and stores a zero coefficient vector, for the baseline variant
    ([parked]) and for the reference variant ([taxi]), although the solver
    handed to it never converges. *)
Lemma train_stores_zero_coefficients :
  filter (moving true) (rows parked) = []
  /\ train no_solver (BaseLineModel 0.17) [parked] __init__
     = ({| _beta := Some [0%float]; _default_usage := Some 4.5%float |}, Ok tt)
  /\ train no_solver (FinalModel unit_pow 1) [taxi] __init__
     = ({| _beta := Some [0; 0; 0; 0; 0; 0]%float; _default_usage := Some 0.5%float |},
        Ok tt).
Proof. split; [|split]; reflexivity. Qed.

Section EmptyTrainingSet.
Variable gelsd : list (list float) -> list float -> result (list float).

Lemma mapM_cons_inv {A B : Type} (f : A -> result B) (x : A) (l : list A) (ys : list B) :
  mapM f (x :: l) = Ok ys -> exists y ys', f x = Ok y /\ mapM f l = Ok ys' /\ ys = y :: ys'.
Proof.
  simpl. destruct (f x) as [y|]; [|discriminate]. simpl.
  destruct (mapM f l) as [ys'|]; [|discriminate]. simpl.
  intros E. injection E as <-. eauto.
Qed.

(** C3 (as the code has it). The guard of [train] is on the list of record
    sets: for every variant, an empty list exits with status -1 and leaves
    the model untouched, while a non-empty list whose record sets derive
    without an exception is merged, and [train] completes whenever the fit
    on the merged frame does, whatever its number of records.  For the
    reference variant every derived record set holds the record of zeros,
    so there the merged frame has no record only when the list is empty. *)
Theorem train_aborts_on_empty_list :
  (forall cls self, train gelsd cls [] self = (self, Raise (SystemExit (-1))))
  /\ (forall cls dfs_list ts self,
      dfs_list <> [] ->
      mapM (fun df => snd (spec_model_calc cls df)) dfs_list = Ok ts ->
      exists dfs,
        concat ts = Ok dfs
        /\ (is_ok (fit gelsd cls dfs) = true -> snd (train gelsd cls dfs_list self) = Ok tt))
  /\ (forall pow dt dfs_list ts,
      dfs_list <> [] ->
      mapM (fun df => snd (spec_model_calc (FinalModel pow dt) df)) dfs_list = Ok ts ->
      exists dfs, concat ts = Ok dfs /\ (0 < nrows dfs)%nat).
Proof.
  split; [reflexivity|]. split.
  - intros cls dfs_list ts self N D.
    destruct (concat_nonempty ts (mapM_nonempty _ _ _ D N)) as (dfs & C).
    exists dfs. split; [exact C|]. intros F.
    destruct (fit gelsd cls dfs) as [[b df2]|] eqn:E; [|discriminate].
    pose proof (fit_ok_inv _ _ _ _ _ E) as T.
    rewrite (train_eq gelsd cls _ _ _ self D C T).
    destruct (fit_eq gelsd cls dfs T) as (df2' & F' & _). rewrite F' in E.
    destruct (lstsq gelsd _ _ _); [reflexivity|discriminate].
  - intros pow dt dfs_list ts N D. destruct dfs_list as [|d rest]; [contradiction|].
    apply mapM_cons_inv in D as (t & ts' & E & _ & ->).
    eexists. split; [reflexivity|].
    cbn [spec_model_calc FinalModel] in E. unfold FinalModel_spec_model_calc in E.
    destruct (derive_features pow dt d) as [df' [[]|]]; [|discriminate].
    cbn [snd] in E. injection E as <-.
    unfold nrows. cbn [records]. rewrite relabel_length, length_map. cbn [flat_map].
    rewrite (proj2 (fix_indexes_records df')), !length_app. simpl. lia.
Qed.

End EmptyTrainingSet.

(** C3, as stated, fails: a record set that has its columns, of dtype
    [float64] and [bool], and no record ([no_records]: a flight of which a
    selection kept nothing) merges into a frame without records, and
    [train] completes on it.  NumPy's [lstsq] hands back a coefficient
    vector of zeros for a design matrix without rows, and the mean of no
    indicator is missing: the model stores [0.] and [nan]. *)
Lemma train_completes_without_records :
  concat [no_records] = Ok no_records
  /\ nrows no_records = 0%nat
  /\ train no_solver (BaseLineModel 0.17) [no_records] __init__
     = ({| _beta := Some [0%float]; _default_usage := Some nan |}, Ok tt).
Proof. split; [|split]; reflexivity. Qed.

Lemma train_aborts_on_empty_list_taxi :
  train no_solver (FinalModel unit_pow 1) [] __init__ = (__init__, Raise (SystemExit (-1)))
  /\ snd (train no_solver (BaseLineModel 0.17) [no_records] __init__) = Ok tt
  /\ exists ts dfs,
       mapM (fun df => snd (spec_model_calc (FinalModel unit_pow 1) df)) [taxi] = Ok ts
       /\ concat ts = Ok dfs
       /\ (0 < nrows dfs)%nat.
Proof.
  pose proof (train_aborts_on_empty_list no_solver) as (A & B & C).
  split; [apply A|]. split.
  - destruct (B (BaseLineModel 0.17) [no_records] [no_records] __init__) as (dfs & Hc & Hf);
      [discriminate|reflexivity|].
    injection Hc as <-. apply Hf. reflexivity.
  - assert (D : mapM (fun df => snd (spec_model_calc (FinalModel unit_pow 1) df)) [taxi]
                = Ok [fix_indexes (fst (FinalModel_spec_model_calc unit_pow 1 taxi))])
      by reflexivity.
    destruct (C unit_pow 1%float [taxi] _ ltac:(discriminate) D) as (dfs & Hc & Hn).
    eexists. exists dfs. split; [exact D|]. split; assumption.
Defined.

(** C8, as stated, fails: on the flight [hop] the first record returned is
    the second record of the flight, and the record of zeros is the last
    one, under the label 0. *)
Lemma reference_zero_row_is_last :
  exists df' out,
    FinalModel_spec_model_calc unit_pow 1 hop = (df', Ok out)
    /\ index out = [1; 2; 0]%Z
    /\ map (cell "voltage") (rows out) = [VFloat 1; VFloat 1; VFloat 0]
    /\ map (cell "vz_imu") (rows out) = [VFloat 1; VFloat 2; VFloat 0]
    /\ map (cell "is_moving") (rows out) = [VBool true; VBool true; VFloat 0].
Proof. do 2 eexists. split; [reflexivity|]. repeat split. Qed.

Lemma reference_feature_derivation_hop :
  exists df' out,
    FinalModel_spec_model_calc unit_pow 1 hop = (df', Ok out)
    /\ records out
       = relabel 1 (filter (fun r => negb (has_na (columns df') r)) (records df'))
         ++ [(0%Z, zero_row (columns df'))]
    /\ moving false (zero_row (columns df')) = true.
Proof.
  destruct (reference_feature_derivation unit_pow 1%float hop)
    as (df' & out & kept & Hrun & -> & _ & _ & Hr & _ & _ & Hz); try reflexivity.
  exists df', out. split; [exact Hrun|]. split; [exact Hr|]. now apply Hz.
Defined.

(** C10, as stated, fails: after [forecast] of the reference variant the
    caller's frame holds seven columns it did not have. *)
Lemma forecast_changes_caller_frame :
  exists df1,
    snd (fst (forecast (FinalModel unit_pow 1) hop idle_model)) = df1
    /\ columns hop = reference_telemetry
    /\ columns df1 = reference_telemetry ++ derived_columns
    /\ getitem "force_z" hop = Raise (KeyError "force_z")
    /\ getitem "force_z" df1 = Ok [VFloat nan; VFloat 1; VFloat 1].
Proof. eexists. split; [reflexivity|]. repeat split. Qed.

Lemma forecast_effects_hop :
  exists df1 out,
    forecast (FinalModel unit_pow 1) hop idle_model = (idle_model, df1, Ok out)
    /\ forecast (FinalModel unit_pow 1) df1 idle_model = (idle_model, df1, Ok out)
    /\ s_index out = [1; 2; 0]%Z
    /\ s_values out = [0; 0; 1]%float
    /\ snd (fst (forecast (BaseLineModel 0.17) parked parked_model)) = parked.
Proof.
  pose proof (forecast_effects unit_pow 1%float) as (_ & B & C).
  do 2 eexists. split; [reflexivity|]. split; [|split; [|split]].
  - apply (fun H => proj1 (C hop idle_model idle_model _ _ H)). reflexivity.
  - reflexivity.
  - reflexivity.
  - apply B.
Defined.

(** * Further properties of the code *)

(** ** [train]: failure, retraining, reporting *)

Section TrainingMore.
Local Open Scope float_scope.
Variable gelsd : list (list float) -> list float -> result (list float).
Variable cls : APredictiveModel.

(** X1. [train] assigns [_beta] and [_default_usage] only once everything
    that can raise has been computed: whenever it raises, whatever the
    exception, the model is left exactly as it was. *)
Theorem train_failure_keeps_model
    (dfs_list : list DataFrame) (self self' : Model) (e : exn) :
  train gelsd cls dfs_list self = (self', Raise e) -> self' = self.
Proof.
  unfold train.
  destruct (mapM _ dfs_list) as [ts|e0]; [|now intros H; injection H].
  destruct (concat ts) as [dfs|e0]; [|destruct e0; now intros H; injection H].
  destruct (fit gelsd cls dfs) as [[b df2]|e0] eqn:F; [|now intros H; injection H].
  pose proof (fit_ok_inv _ _ _ _ _ F) as T.
  destruct (fit_eq gelsd cls dfs T) as (df2' & F' & P). rewrite F' in F.
  destruct (lstsq gelsd _ _ _); [|discriminate F].
  cbn [bind] in F. injection F as _ <-. rewrite P. discriminate.
Qed.

(** X2. A completed [train] overwrites both attributes with values that
    do not depend on what the model held before: trained from any other
    state on the same record sets, the model ends up the same. *)
Theorem retrain_overwrites (dfs_list : list DataFrame) (self self' other : Model) :
  train gelsd cls dfs_list self = (self', Ok tt) ->
  train gelsd cls dfs_list other = (self', Ok tt).
Proof.
  intros H. apply train_ok_inv in H as (ts & dfs & b & D & C & T & L & ->).
  now rewrite (train_eq gelsd cls _ _ _ other D C T), L.
Qed.

(** X3. After a completed [train] neither property raises, and
    [print_training_results] succeeds: it pairs the coefficients, in order,
    with ["intercept"] followed by the predictor names, and prints the
    stationary baseline. *)
Theorem report_after_train (dfs_list : list DataFrame) (self self' : Model) :
  train gelsd cls dfs_list self = (self', Ok tt) ->
  exists b d,
    beta self' = Ok b
    /\ default_usage self' = Ok d
    /\ print_training_results cls self'
       = Ok (combine b ("intercept"%string :: predictors_list cls), d).
Proof.
  intros H. apply train_ok_inv in H as (ts & dfs & b & _ & _ & _ & _ & ->).
  do 2 eexists. repeat split.
Qed.

(** X4. The merged frame is read in the order [voltage], [current],
    [is_moving]: the first of these columns that no record set carries is
    the [KeyError] that [train] raises, and the model is not touched. *)
Theorem train_missing_column
    (dfs_list ts : list DataFrame) (dfs : DataFrame) (self : Model) :
  mapM (fun df => snd (spec_model_calc cls df)) dfs_list = Ok ts ->
  concat ts = Ok dfs ->
  (has_column "voltage" dfs = false ->
   train gelsd cls dfs_list self = (self, Raise (KeyError "voltage")))
  /\ (has_column "voltage" dfs = true -> has_column "current" dfs = false ->
      train gelsd cls dfs_list self = (self, Raise (KeyError "current")))
  /\ (has_column "voltage" dfs = true -> has_column "current" dfs = true ->
      has_column "is_moving" dfs = false ->
      train gelsd cls dfs_list self = (self, Raise (KeyError "is_moving"))).
Proof.
  intros D C. unfold train. rewrite D, C. unfold fit, floats.
  split; [|split].
  - intros V. unfold getitem at 1. now rewrite V.
  - intros V Cu. rewrite (getitem_ok _ _ V). cbn [bind].
    unfold getitem at 1. now rewrite Cu.
  - intros V Cu M. rewrite (getitem_ok _ _ V), (getitem_ok _ _ Cu). cbn [bind].
    unfold phase at 1. unfold getitem at 1.
    rewrite has_column_setitem, M. reflexivity.
Qed.

End TrainingMore.

Lemma train_failure_keeps_model_cruise :
  train no_solver (BaseLineModel 0.17) [cruise] parked_model
  = (parked_model, Raise (LinAlgError "SVD did not converge in Linear Least Squares")).
Proof.
  assert (E : exists m, train no_solver (BaseLineModel 0.17) [cruise] parked_model
                        = (m, Raise (LinAlgError "SVD did not converge in Linear Least Squares")))
    by (eexists; reflexivity).
  destruct E as (m & E). rewrite E.
  now rewrite (train_failure_keeps_model _ _ _ _ _ _ E).
Defined.

Lemma retrain_overwrites_cruise :
  train mean_solver (BaseLineModel 0.17) [cruise] parked_model
  = ({| _beta := Some [8%float]; _default_usage := Some 2%float |}, Ok tt).
Proof.
  apply (retrain_overwrites mean_solver (BaseLineModel 0.17) [cruise] __init__).
  reflexivity.
Defined.

Lemma report_after_train_cruise :
  exists b d,
    print_training_results (BaseLineModel 0.17)
      (fst (train mean_solver (BaseLineModel 0.17) [cruise] __init__))
    = Ok (combine b ["intercept"%string], d).
Proof.
  destruct (report_after_train mean_solver (BaseLineModel 0.17) [cruise] __init__
              (fst (train mean_solver (BaseLineModel 0.17) [cruise] __init__)))
    as (b & d & _ & _ & H); [reflexivity|].
  exists b, d. exact H.
Defined.

Lemma train_missing_column_example :
  train no_solver (BaseLineModel 0.17) [no_current] parked_model
  = (parked_model, Raise (KeyError "current")).
Proof.
  apply (proj1 (proj2 (train_missing_column no_solver (BaseLineModel 0.17)
                         [no_current] [no_current] no_current parked_model
                         eq_refl eq_refl))); reflexivity.
Defined.

(** ** [forecast]: the exceptions it raises, and what it returns after a
    training without moving records *)

Section ForecastMore.
Local Open Scope float_scope.
Variable cls : APredictiveModel.

Lemma mask_rows (df : DataFrame) :
  map (eq_bool true) (map (fun r : Z * row => cell "is_moving" (snd r)) (records df))
  = map (moving true) (rows df).
Proof. unfold rows. rewrite !map_map. reflexivity. Qed.

Lemma full_rows (d : option float) (df : DataFrame) :
  full d (nrows df)
  = repeat (match d with Some x => x | None => nan end) (length (rows df)).
Proof. unfold full, nrows, rows. now rewrite length_map. Qed.

(** The loop of [forecast] stops with an [IndexError] when the coefficient
    vector ends before the predictor list does. *)
Lemma forecast_loop_short (self : Model) (df : DataFrame) (b : list float)
    (mask : list bool) (ps : list string) (i : nat) (power : list float) :
  _beta self = Some b ->
  forallb (fun p => has_column p df) ps = true ->
  (i + 1 <= length b)%nat -> (length b < i + 1 + length ps)%nat ->
  for_enumerate (add_predictor self df mask) i ps power
  = Raise (IndexError "index is out of bounds").
Proof.
  intros B. revert i power. induction ps as [|p ps IH]; intros i power H L1 L2.
  - simpl in L2. lia.
  - cbn [forallb] in H. apply andb_prop in H as [Hp Hps]. cbn [length] in L2.
    cbn [for_enumerate]. unfold add_predictor at 1.
    rewrite (floats_ok _ _ Hp). unfold beta. rewrite B. cbn [bind]. unfold item.
    destruct (nth_error b (i + 1)) as [bi|] eqn:N; cbn [bind].
    + apply IH; [exact Hps| |lia].
      assert (i + 1 < length b)%nat by (apply nth_error_Some; congruence). lia.
    + reflexivity.
Qed.

(** X5. What [forecast] raises on a derived frame that cannot be
    forecast.  Without the [is_moving] column it is [KeyError], before the
    coefficients are looked at, so for trained and untrained models alike.
    With the columns present and a coefficient vector shorter than the
    intercept plus the predictors it is [IndexError].  In both cases the
    model is returned as it was. *)
Theorem forecast_errors (df dfc df' : DataFrame) (self : Model) :
  spec_model_calc cls df = (dfc, Ok df') ->
  (has_column "is_moving" df' = false ->
   forecast cls df self = (self, dfc, Raise (KeyError "is_moving")))
  /\ (forall b,
      has_column "is_moving" df' = true ->
      forallb (fun p => has_column p df') (predictors_list cls) = true ->
      _beta self = Some b ->
      (length b < S (length (predictors_list cls)))%nat ->
      forecast cls df self = (self, dfc, Raise (IndexError "index is out of bounds"))).
Proof.
  intros Sp. unfold forecast. rewrite Sp. cbn [bind]. split.
  - intros M. unfold getitem. now rewrite M.
  - intros b M P B L. rewrite (getitem_ok _ _ M). cbn [bind].
    unfold beta at 1. rewrite B. cbn [bind].
    destruct b as [|b0 b']; [reflexivity|]. cbn [item nth_error bind].
    rewrite (forecast_loop_short self df' (b0 :: b') _ _ 0 _ B P); [reflexivity| |];
      simpl in *; lia.
Qed.

(** What [forecast] returns when nothing raises, as a whole. *)
Lemma forecast_eq (df dfc df' : DataFrame) (self : Model) (b : list float) :
  spec_model_calc cls df = (dfc, Ok df') ->
  has_column "is_moving" df' = true ->
  forallb (fun p => has_column p df') (predictors_list cls) = true ->
  _beta self = Some b ->
  length b = S (length (predictors_list cls)) ->
  forecast cls df self
  = (self, dfc,
     Ok {| s_index := index df';
           s_values :=
             map (fun r => retransform_power cls
                             (if moving true r then linear_predictor cls b r
                              else match _default_usage self with
                                   | Some d => d
                                   | None => nan
                                   end)) (rows df') |}).
Proof.
  intros Sp HM HP B L. unfold forecast. rewrite Sp. cbn [bind].
  rewrite (getitem_ok _ _ HM). cbn [bind]. unfold beta at 1. rewrite B. cbn [bind].
  destruct b as [|b0 b']; [discriminate|]. cbn [item nth_error bind].
  rewrite mask_rows, full_rows.
  rewrite (masked_set_map (moving true) b0 _ (rows df')).
  rewrite (forecast_loop self df' (b0 :: b') _ _ 0 (fun _ => b0) B HP)
    by (simpl in *; lia).
  cbn [bind]. do 3 f_equal. rewrite map_map. apply map_ext. intros r. reflexivity.
Qed.

End ForecastMore.

Lemma forecast_errors_example :
  forecast (BaseLineModel 0.17)
    (frame ["time"; "voltage"]%string [[VFloat 0; VFloat 1.5]]%float) __init__
  = (__init__, frame ["time"; "voltage"]%string [[VFloat 0; VFloat 1.5]]%float,
     Raise (KeyError "is_moving"))
  /\ forecast (FinalModel unit_pow 1) hop
       {| _beta := Some [0; 0]%float; _default_usage := Some 1%float |}
     = ({| _beta := Some [0; 0]%float; _default_usage := Some 1%float |},
        fst (FinalModel_spec_model_calc unit_pow 1 hop),
        Raise (IndexError "index is out of bounds")).
Proof.
  split.
  - apply (proj1 (forecast_errors (BaseLineModel 0.17) _ _ _ __init__ eq_refl)).
    reflexivity.
  - apply (proj2 (forecast_errors (FinalModel unit_pow 1) hop _ _
                    {| _beta := Some [0; 0]%float; _default_usage := Some 1%float |}
                    eq_refl) [0; 0]%float);
      first [reflexivity | cbn; lia].
Defined.

Section PhaseMore.
Local Open Scope float_scope.
Variable gelsd : list (list float) -> list float -> result (list float).

(** X6. The baseline variant, trained on record sets without any moving
    record, forecasts 0 W for every moving record of any flight, and the
    stationary mean elsewhere: the zero coefficient vector of the empty
    least-squares problem is used as it is. *)
Theorem baseline_forecast_without_moving_training
    (dt : float) (dfs_list ts : list DataFrame) (dfs df : DataFrame) (self self' : Model) :
  train gelsd (BaseLineModel dt) dfs_list self = (self', Ok tt) ->
  mapM (fun df => snd (spec_model_calc (BaseLineModel dt) df)) dfs_list = Ok ts ->
  concat ts = Ok dfs ->
  filter (moving true) (rows dfs) = [] ->
  has_column "is_moving" df = true ->
  forecast (BaseLineModel dt) df self'
  = (self', df,
     Ok {| s_index := index df;
           s_values :=
             map (fun r => if moving true r then 0
                           else nanmean (stationary_indicators (BaseLineModel dt) dfs))
               (rows df) |}).
Proof.
  intros H D C E M.
  apply train_ok_inv in H as (ts' & dfs' & b & D' & C' & T & L & ->).
  rewrite D in D'. injection D' as <-. rewrite C in C'. injection C' as <-.
  destruct (design_without_moving_rows (BaseLineModel dt) dfs E) as [X Y].
  rewrite X, Y in L. cbn in L. injection L as <-.
  rewrite (forecast_eq (BaseLineModel dt) df df df
             {| _beta := Some [0];
                _default_usage :=
                  Some (nanmean (stationary_indicators (BaseLineModel dt) dfs)) |} [0]);
    try reflexivity. exact M.
Qed.

Variable cls : APredictiveModel.

(** X7. Records whose [is_moving] is neither [True] nor [False] belong to
    neither phase: appending record sets made of such records only (a
    flight file without the [is_moving] column, say) changes neither the
    coefficients nor the baseline that [train] stores. *)
Theorem train_ignores_unflagged_records
    (dfs_list extra es : list DataFrame) (self self1 : Model) :
  train gelsd cls dfs_list self = (self1, Ok tt) ->
  mapM (fun df => snd (spec_model_calc cls df)) extra = Ok es ->
  Forall (fun r => moving true r = false /\ moving false r = false) (all_rows es) ->
  train gelsd cls (dfs_list ++ extra) self = (self1, Ok tt).
Proof.
  intros H1 D2 U.
  apply train_ok_inv in H1 as (ts & dfs1 & b & D1 & C1 & T1 & L1 & ->).
  assert (N : ts ++ es <> []).
  { destruct ts; [discriminate C1|discriminate]. }
  destruct (concat_nonempty _ N) as (dfs2 & C2).
  pose proof (trainable_enlarged cls _ _ _ _ C1 C2 T1) as T2.
  destruct (merged_views cls _ _ C1 T1) as (X1 & Y1 & Z1).
  destruct (merged_views cls _ _ C2 T2) as (X2 & Y2 & Z2).
  rewrite all_rows_app, filter_app, map_app in X2, Y2, Z2.
  assert (M : filter (fun r => fst (fst (fst (view cls r)))) (all_rows es) = []).
  { apply filter_none. eapply Forall_impl; [|exact U]. intros r [A _]. exact A. }
  assert (M' : filter (fun r => snd (fst (fst (view cls r)))) (all_rows es) = []).
  { apply filter_none. eapply Forall_impl; [|exact U]. intros r [_ A]. exact A. }
  rewrite M in X2, Y2. rewrite M' in Z2. cbn [map] in X2, Y2, Z2.
  rewrite app_nil_r in X2, Y2, Z2.
  rewrite <- X1 in X2. rewrite <- Y1 in Y2. rewrite <- Z1 in Z2.
  assert (D : mapM (fun df => snd (spec_model_calc cls df)) (dfs_list ++ extra)
              = Ok (ts ++ es)).
  { now rewrite mapM_app, D1, D2. }
  now rewrite (train_eq gelsd cls _ _ _ self D C2 T2), X2, Y2, Z2, L1.
Qed.

End PhaseMore.

Lemma baseline_forecast_without_moving_training_example :
  forecast (BaseLineModel 0.17) cruise parked_model
  = (parked_model, cruise,
     Ok {| s_index := [0; 1; 2]%Z; s_values := [4.5; 0; 0]%float |}).
Proof.
  rewrite (baseline_forecast_without_moving_training no_solver 0.17%float
             [parked] [parked] parked cruise __init__ parked_model);
    reflexivity.
Defined.

Lemma train_ignores_unflagged_records_example :
  train mean_solver (BaseLineModel 0.17) ([cruise] ++ [unflagged]) __init__
  = ({| _beta := Some [8%float]; _default_usage := Some 2%float |}, Ok tt).
Proof.
  apply (train_ignores_unflagged_records mean_solver (BaseLineModel 0.17)
           [cruise] [unflagged] [unflagged]); [reflexivity|reflexivity|].
  repeat constructor.
Defined.

(** ** The reference variant: missing columns, and the shape of what it
    returns *)

Section ReferenceMore.
Local Open Scope float_scope.
Variable pow : float -> float -> float.
Variable delta_time : float.

Lemma floats_missing (c : string) (df : DataFrame) :
  has_column c df = false -> floats c df = Raise (KeyError c).
Proof. intros H. unfold floats, getitem. now rewrite H. Qed.

(** X8. [spec_model_calc] of the reference variant works on the caller's
    frame as it goes.  Without the anemometer columns it raises [KeyError]
    and the frame is untouched; with them but without [vz_imu] it raises
    [KeyError] after the two horizontal columns have been stored, so the
    caller's frame has gained [xy_air_speed] and [xy_air_acceleration],
    its other columns being as they were. *)
Theorem reference_missing_column (df : DataFrame) :
  (has_column "vx_anemometer" df = false ->
   FinalModel_spec_model_calc pow delta_time df = (df, Raise (KeyError "vx_anemometer")))
  /\ (has_column "vx_anemometer" df = true -> has_column "vy_anemometer" df = true ->
      has_column "vz_imu" df = false ->
      exists df',
        FinalModel_spec_model_calc pow delta_time df = (df', Raise (KeyError "vz_imu"))
        /\ has_column "xy_air_speed" df' = true
        /\ has_column "xy_air_acceleration" df' = true
        /\ (forall c, String.eqb c "xy_air_speed" = false ->
            String.eqb c "xy_air_acceleration" = false ->
            getitem c df' = getitem c df)).
Proof.
  unfold FinalModel_spec_model_calc. cbv delta [derive_features andthen store] beta.
  split.
  - intros H. unfold xy_air_speed. now rewrite (floats_missing _ _ H).
  - intros Hx Hy Hz.
    destruct (xy_air_speed_ok df Hx Hy) as (s1 & E1). rewrite E1. cbv iota beta.
    destruct (xy_air_acceleration_ok delta_time (setitem "xy_air_speed" s1 df))
      as (s2 & E2); auto with cols. rewrite E2. cbv iota beta.
    unfold z_acceleration at 1. rewrite floats_missing.
    2:{ rewrite !has_column_setitem, Hz. reflexivity. }
    cbn [bind]. eexists. split; [reflexivity|].
    split; [auto with cols|]. split; [auto with cols|].
    intros c N1 N2. now rewrite !getitem_setitem_other.
Qed.

Lemma has_na_relabel (cols : list string) (from : Z) (rs : list (Z * row)) :
  forallb (fun r => negb (has_na cols r)) (relabel from rs)
  = forallb (fun r => negb (has_na cols r)) rs.
Proof.
  revert from; induction rs as [|[l r] t IH]; intros from; simpl; [reflexivity|].
  now rewrite IH.
Qed.

Lemma forallb_filter {A : Type} (p : A -> bool) (l : list A) :
  forallb p (filter p l) = true.
Proof.
  induction l as [|x t IH]; simpl; [reflexivity|].
  destruct (p x) eqn:E; simpl; [now rewrite E|exact IH].
Qed.

Lemma zero_row_complete (cols : list string) (l : Z) :
  has_na cols (l, zero_row cols) = false.
Proof.
  unfold has_na. cbn [snd].
  assert (G : forall cs, (forall c, In c cs -> existsb (String.eqb c) cols = true) ->
              existsb (fun c => isna (cell c (zero_row cols))) cs = false).
  { induction cs as [|c cs IH]; intros H; simpl; [reflexivity|].
    rewrite (cell_zero_row c cols) by (apply H; now left).
    simpl. apply IH. intros c' I. apply H. now right. }
  apply G. intros c I. apply existsb_exists. exists c. split; [exact I|].
  apply String.eqb_refl.
Qed.

Lemma filter_length_le {A : Type} (p : A -> bool) (l : list A) :
  (length (filter p l) <= length l)%nat.
Proof. induction l as [|x t IH]; simpl; [lia|]. destruct (p x); simpl; lia. Qed.

(** X9. What the reference variant returns never has a missing cell, in
    any column, and never more records than the flight had: the first
    record is dropped and one record of zeros is added.  A flight without
    records comes back as the record of zeros alone. *)
Theorem reference_output_complete (df df' out : DataFrame) :
  FinalModel_spec_model_calc pow delta_time df = (df', Ok out) ->
  forallb (fun r => negb (has_na (columns out) r)) (records out) = true
  /\ (1 <= nrows out)%nat
  /\ (records df <> [] -> nrows out <= nrows df)%nat
  /\ (records df = [] -> records out = [(0%Z, zero_row (columns out))]).
Proof.
  unfold FinalModel_spec_model_calc.
  destruct (derive_features pow delta_time df) as [d [[]|e]] eqn:D; [|discriminate].
  intros H. injection H as <- <-.
  destruct (fix_indexes_records d) as [FC FR]. rewrite FC. unfold nrows. rewrite FR.
  assert (RL : length (records d) = length (records df)).
  { apply derive_features_inv in D
      as (s1 & s2 & s3 & s4 & s5 & s6 & s7 & _ & _ & _ & _ & _ & _ & _ & ->).
    cbn [records setitem]. clear.
    assert (SL : forall c s rs, length (set_cells c s rs) = length rs).
    { intros c s rs. revert s. induction rs as [|[l r] t IH]; intros s; simpl;
        [reflexivity|now rewrite IH]. }
    now rewrite !SL. }
  split; [|split; [|split]].
  - rewrite forallb_app, has_na_relabel, forallb_filter. cbn [forallb].
    now rewrite zero_row_complete.
  - rewrite length_app. simpl. lia.
  - intros N. rewrite length_app, relabel_length. cbn [length].
    destruct (records d) as [|r0 rest] eqn:R.
    { rewrite <- RL in *. destruct (records df); [contradiction|discriminate RL]. }
    cbn [filter].
    rewrite (first_record_missing pow delta_time df d r0 rest D R). cbn [negb].
    pose proof (filter_length_le (fun r => negb (has_na (columns d) r)) rest).
    rewrite <- RL. simpl. lia.
  - intros E. rewrite E in RL. destruct (records d); [reflexivity|discriminate RL].
Qed.

End ReferenceMore.

Lemma reference_missing_column_example :
  FinalModel_spec_model_calc unit_pow 1 parked = (parked, Raise (KeyError "vx_anemometer")).
Proof.
  apply (proj1 (reference_missing_column unit_pow 1%float parked)). reflexivity.
Defined.

Lemma reference_output_complete_hop :
  exists df' out,
    FinalModel_spec_model_calc unit_pow 1 hop = (df', Ok out)
    /\ forallb (fun r => negb (has_na (columns out) r)) (records out) = true
    /\ (nrows out <= nrows hop)%nat.
Proof.
  do 2 eexists. split; [reflexivity|].
  match goal with |- forallb _ (records ?o) = _ /\ _ =>
    destruct (reference_output_complete unit_pow 1%float hop
                (fst (FinalModel_spec_model_calc unit_pow 1 hop)) o eq_refl)
      as (A & _ & B & _) end.
  split; [exact A|]. apply B. discriminate.
Defined.

Lemma set_cells_index (c : string) (s : list float) (rs : list (Z * row)) :
  map fst (set_cells c s rs) = map fst rs.
Proof.
  revert s; induction rs as [|[l r] t IH]; intros s; simpl; [reflexivity|].
  now rewrite IH.
Qed.

Lemma relabel_same (k : nat) (rs : list (Z * row)) :
  map fst rs = map Z.of_nat (seq k (length rs)) -> relabel (Z.of_nat k) rs = rs.
Proof.
  revert k; induction rs as [|[l r] t IH]; intros k H; simpl in *; [reflexivity|].
  injection H as -> H. f_equal.
  replace (Z.of_nat k + 1)%Z with (Z.of_nat (S k)) by lia. now apply IH.
Qed.

Section ReferenceLabels.
Variable pow : float -> float -> float.
Variable delta_time : float.

Lemma derive_features_index (df df' : DataFrame) :
  derive_features pow delta_time df = (df', Ok tt) -> index df' = index df.
Proof.
  intros D. apply derive_features_inv in D
    as (s1 & s2 & s3 & s4 & s5 & s6 & s7 & _ & _ & _ & _ & _ & _ & _ & ->).
  unfold index. cbn [records setitem]. now rewrite !set_cells_index.
Qed.

(** X10. For a flight indexed [0 .. n-1], as [read_csv] and [reset_index]
    leave it, whose records after the first have no missing cell, every
    record that survives keeps the label it had: the returned set is the
    flight without its first record, followed by the record of zeros under
    the label 0 of the record dropped.  The returned index is the index of
    the flight with 0 moved to the end, which is what lets a forecast be
    aligned with the flight by label. *)
Theorem reference_labels_align (df df' out : DataFrame) :
  FinalModel_spec_model_calc pow delta_time df = (df', Ok out) ->
  index df = range (nrows df) ->
  (forall r, In r (tl (records df')) -> has_na (columns df') r = false) ->
  records out = tl (records df') ++ [(0%Z, zero_row (columns df'))]
  /\ index out = tl (index df) ++ [0%Z].
Proof.
  unfold FinalModel_spec_model_calc.
  destruct (derive_features pow delta_time df) as [d [[]|e]] eqn:D; [|discriminate].
  intros H. injection H as <- <-. intros I K.
  pose proof (derive_features_index df d D) as ID.
  destruct (fix_indexes_records d) as [_ FR].
  assert (R : records (fix_indexes d) = tl (records d) ++ [(0%Z, zero_row (columns d))]).
  { rewrite FR. f_equal. destruct (records d) as [|r0 rest] eqn:E; [reflexivity|].
    cbn [filter tl] in *.
    rewrite (first_record_missing pow delta_time df d r0 rest D E). cbn [negb].
    rewrite filter_all.
    2:{ apply Forall_forall. intros r Hr. now rewrite (K r Hr). }
    apply (relabel_same 1).
    rewrite I in ID. unfold index, nrows, range in ID. rewrite E in ID.
    assert (L : length (records df) = S (length rest)).
    { apply (f_equal (@length Z)) in ID. rewrite !length_map, length_seq in ID.
      simpl in ID. lia. }
    rewrite L in ID. cbn [seq map] in ID. now injection ID as _ ID. }
  split; [exact R|].
  unfold index at 1. rewrite R, map_app. cbn [map fst]. f_equal.
  rewrite <- ID. unfold index. now destruct (records d).
Qed.

End ReferenceLabels.

Lemma reference_labels_align_hop :
  exists df' out,
    FinalModel_spec_model_calc unit_pow 1 hop = (df', Ok out)
    /\ records out = tl (records df') ++ [(0%Z, zero_row (columns df'))]
    /\ index hop = [0; 1; 2]%Z
    /\ index out = [1; 2; 0]%Z.
Proof.
  do 2 eexists. split; [reflexivity|].
  match goal with |- records ?o = tl (records ?d) ++ _ /\ _ =>
    destruct (reference_labels_align unit_pow 1%float hop d o eq_refl eq_refl) as (A & B) end.
  - intros r [<-|[<-|[]]]; reflexivity.
  - split; [exact A|]. split; [reflexivity|]. exact B.
Defined.

(** ** The evaluator: what an evaluation leaves behind *)

Section EvaluationMore.
Local Open Scope float_scope.
Variable CubicSpline : list float -> list float -> float -> float.

(** X11. On a predicted cumulative series whose labels are distinct, an
    evaluation either reports or leaves the evaluator as it was.  When it
    raises, no attribute has changed, so no score is recorded for the
    flight; when it reports, [results] has grown by exactly the APE
    reported, placed last, [batt_state] is the projected trajectory and the
    four energy series are untouched.  (With a repeated last label the
    score stored is a series and the evaluation raises after storing it:
    [evaluation_with_repeated_label].) *)
Theorem evaluation_outcome (self : TestsMaker) :
  NoDup (s_index (energy_pred_cum self)) ->
  match _model_evaluation CubicSpline self with
  | (self', Raise _) => self' = self
  | (self', Ok rep) =>
      results self' = results self ++ [One (ape rep)]
      /\ batt_state self' = Trajectory (joules2SoC CubicSpline 1 (energy_pred_cum self)
                                          25 4500 22.2 1)
      /\ energy self' = energy self /\ energy_cum self' = energy_cum self
      /\ energy_pred self' = energy_pred self
      /\ energy_pred_cum self' = energy_pred_cum self
  end.
Proof.
  intros D. unfold _model_evaluation.
  destruct (abs_error (energy self) (energy_pred self)); cbn [bind]; [|reflexivity].
  destruct (abs_percentage_error (energy self) (energy_pred self)); cbn [bind];
    [|reflexivity].
  destruct (abs_error (energy_cum self) (energy_pred_cum self)); cbn [bind]; [|reflexivity].
  destruct (abs_percentage_error (energy_cum self) (energy_pred_cum self)); cbn [bind];
    [|reflexivity].
  destruct (r_squared (energy self) (energy_pred self)); cbn [bind]; [|reflexivity].
  destruct (r_squared (energy_cum self) (energy_pred_cum self)); cbn [bind]; [|reflexivity].
  destruct (array_getitem _ (energy_cum self)); cbn [bind]; [|reflexivity].
  unfold series_getitem.
  pose proof (at_label_distinct (Z.of_nat (length (energy_cum self)) - 1) _
                (s_values (energy_pred_cum self)) D) as L.
  pose proof (at_label_values (Z.of_nat (length (energy_cum self)) - 1)
                (s_index (energy_pred_cum self)) (s_values (energy_pred_cum self))) as A.
  destruct (at_label _ _ _) as [|p [|q vs]]; cbn [bind]; [reflexivity| |simpl in L; lia].
  assert (N : s_values (energy_pred_cum self) <> []) by (apply A; discriminate).
  unfold joules2SoC. cbn [s_values].
  destruct (exists_last N) as (t & x & E). rewrite E.
  rewrite !map_app, rev_app_distr. cbn [map rev app].
  cbn [results batt_state energy energy_cum energy_pred energy_pred_cum ape].
  repeat split.
Qed.

(** X12. A flight without records cannot be scored: the last cumulative
    energy does not exist, the evaluation raises, and the evaluator is as
    it was. *)
Theorem evaluation_of_empty_flight (self : TestsMaker) :
  energy_cum self = [] ->
  exists e, _model_evaluation CubicSpline self = (self, Raise e).
Proof.
  intros E. unfold _model_evaluation.
  destruct (abs_error (energy self) (energy_pred self)); cbn [bind]; [|eauto].
  destruct (abs_percentage_error (energy self) (energy_pred self)); cbn [bind]; [|eauto].
  destruct (abs_error (energy_cum self) (energy_pred_cum self)); cbn [bind]; [|eauto].
  destruct (abs_percentage_error (energy_cum self) (energy_pred_cum self)); cbn [bind];
    [|eauto].
  destruct (r_squared (energy self) (energy_pred self)); cbn [bind]; [|eauto].
  destruct (r_squared (energy_cum self) (energy_pred_cum self)); cbn [bind]; [|eauto].
  rewrite E. cbn. eauto.
Qed.

Lemma masked_percentages (p : float -> bool) (a v : list float) :
  length a = length v ->
  map abs (map2 (fun x y => y / x) (select (map p a) a)
             (map2 PrimFloat.sub (select (map p a) a) (select (map p a) v)))
  = map (fun tp => abs ((fst tp - snd tp) / fst tp))
      (filter (fun tp => p (fst tp)) (combine a v)).
Proof.
  revert v; induction a as [|x a IH]; intros [|y v] E; simpl in *;
    try reflexivity; try discriminate.
  injection E as E. destruct (p x); simpl; now rewrite IH.
Qed.

(** The percentage error of [_model_evaluation], read pair by pair. *)
Lemma abs_percentage_error_pairs (a : list float) (s : Series) :
  length a = length (s_values s) ->
  abs_percentage_error a s
  = Ok (nanmean (map (fun tp => abs ((fst tp - snd tp) / fst tp))
                   (filter (fun tp => negb (fst tp =? 0)) (combine a (s_values s))))
        * 100).
Proof.
  intros E. unfold abs_percentage_error, series_mask.
  rewrite length_map, E, Nat.eqb_refl. cbn [bind].
  rewrite array_op_series_ok by (cbn [s_values]; now apply select_length).
  cbn [bind s_values s_index].
  rewrite array_op_series_ok.
  2:{ cbn [s_values]. rewrite map2_length; [reflexivity|now apply select_length]. }
  cbn [bind series_map s_values].
  now rewrite (masked_percentages (fun x => negb (x =? 0)) a (s_values s) E).
Qed.

Lemma abs_error_ok_inv (a : list float) (s : Series) (x : float) :
  abs_error a s = Ok x -> length a = length (s_values s).
Proof.
  unfold abs_error, array_op_series.
  destruct (Nat.eqb_spec (length a) (length (s_values s))); [auto|discriminate].
Qed.

(** Whenever an evaluation reports, its MAPE is the mean over the steps
    whose true energy is not zero. *)
Lemma reported_mape (self self' : TestsMaker) (rep : Report) :
  _model_evaluation CubicSpline self = (self', Ok rep) ->
  mape rep
  = nanmean (map (fun tp => abs ((fst tp - snd tp) / fst tp))
               (filter (fun tp => negb (fst tp =? 0))
                  (combine (energy self) (s_values (energy_pred self))))) * 100.
Proof.
  unfold _model_evaluation.
  destruct (abs_error (energy self) (energy_pred self)) eqn:A; cbn [bind]; [|discriminate].
  apply abs_error_ok_inv in A. rewrite (abs_percentage_error_pairs _ _ A). cbn [bind].
  destruct (abs_error (energy_cum self) (energy_pred_cum self)); cbn [bind]; [|discriminate].
  destruct (abs_percentage_error (energy_cum self) (energy_pred_cum self)); cbn [bind];
    [|discriminate].
  destruct (r_squared (energy self) (energy_pred self)); cbn [bind]; [|discriminate].
  destruct (r_squared (energy_cum self) (energy_pred_cum self)); cbn [bind]; [|discriminate].
  destruct (array_getitem _ (energy_cum self)); cbn [bind]; [|discriminate].
  destruct (series_getitem _ _) as [[p|p]|]; cbn [bind]; [|discriminate|discriminate].
  destruct (rev _); [discriminate|]. intros H. injection H as _ <-. reflexivity.
Qed.

(** A flight with a last step, series of equal lengths and the labels
    [0 .. n-1] is reported on. *)
Lemma evaluation_reports (self : TestsMaker) (hist : list float) (true_last : float) :
  length (energy self) = length (s_values (energy_pred self)) ->
  length (energy_cum self) = length (s_values (energy_pred_cum self)) ->
  energy_cum self = hist ++ [true_last] ->
  s_index (energy_pred_cum self) = range (length (energy_cum self)) ->
  exists (rep : Report) (self' : TestsMaker),
    _model_evaluation CubicSpline self = (self', Ok rep).
Proof.
  intros E1 E2 Hc Hi.
  destruct (exists_last (l := s_values (energy_pred_cum self))) as (hist' & pred_last & Hp).
  { intros N. rewrite N, Hc, length_app in E2. simpl in E2. lia. }
  assert (Hl : length hist' = length hist).
  { rewrite Hc, Hp, !length_app in E2. simpl in E2. lia. }
  destruct (abs_percentage_error_ok _ _ E1) as (mape1 & M1).
  destruct (abs_percentage_error_ok _ _ E2) as (mape2 & M2).
  destruct (r_squared_ok _ _ E1) as (r1 & R1).
  destruct (r_squared_ok _ _ E2) as (r2c & R2).
  assert (G : series_getitem (Z.of_nat (length (energy_cum self)) - 1) (energy_pred_cum self)
              = Ok (One pred_last)).
  { unfold series_getitem. rewrite Hi, Hp, Hc, length_app. simpl length. unfold range.
    replace (Z.of_nat (length hist + 1) - 1)%Z with (Z.of_nat (0 + length hist')) by lia.
    rewrite <- Hl. now rewrite at_label_last. }
  assert (A : array_getitem (Z.of_nat (length (energy_cum self)) - 1) (energy_cum self)
              = Ok true_last).
  { rewrite Hc. apply array_getitem_last. }
  unfold _model_evaluation.
  rewrite (abs_error_ok _ _ E1), (abs_error_ok _ _ E2), M1, M2, R1, R2, A, G.
  cbn [bind]. unfold joules2SoC. cbn [s_values].
  rewrite Hp, !map_app. cbn [map]. rewrite rev_app_distr. cbn [rev app].
  do 2 eexists. reflexivity.
Qed.

(** X13. For an evaluated flight whose true and predicted energy series
    have the same length, have at least one entry and whose predicted
    cumulative series is labelled [0 .. n-1], the evaluation reports, and
    the MAPE it reports is the mean, times 100, of [|true - predicted| /
    true] over the steps whose true energy is not zero; the other steps are
    left out of it.  When the true energy is zero at every step there is
    nothing to average and the MAPE reported is [nan]. *)
Theorem evaluation_mape (self : TestsMaker) (hist : list float) (true_last : float) :
  length (energy self) = length (s_values (energy_pred self)) ->
  length (energy_cum self) = length (s_values (energy_pred_cum self)) ->
  energy_cum self = hist ++ [true_last] ->
  s_index (energy_pred_cum self) = range (length (energy_cum self)) ->
  exists (rep : Report) (self' : TestsMaker),
    _model_evaluation CubicSpline self = (self', Ok rep)
    /\ mape rep
       = nanmean (map (fun tp => abs ((fst tp - snd tp) / fst tp))
                    (filter (fun tp => negb (fst tp =? 0))
                       (combine (energy self) (s_values (energy_pred self))))) * 100
    /\ (forallb (fun x => x =? 0) (energy self) = true -> mape rep = nan).
Proof.
  intros E1 E2 Hc Hi.
  destruct (evaluation_reports self hist true_last E1 E2 Hc Hi) as (rep & self' & R).
  exists rep, self'. split; [exact R|].
  pose proof (reported_mape _ _ _ R) as M. split; [exact M|].
  intros Z. rewrite M.
  assert (F : filter (fun tp : float * float => negb (fst tp =? 0))
                (combine (energy self) (s_values (energy_pred self))) = []).
  { clear - Z. revert Z. generalize (s_values (energy_pred self)).
    induction (energy self) as [|x t IH]; intros [|y v] Z; simpl in *; try reflexivity.
    apply andb_prop in Z as [Zx Zt]. rewrite Zx. simpl. now apply IH. }
  rewrite F. reflexivity.
Qed.

End EvaluationMore.

Lemma evaluation_of_empty_flight_grounded :
  _model_evaluation flat_spline grounded
  = (grounded, Raise (IndexError "index is out of bounds")).
Proof.
  destruct (evaluation_of_empty_flight flat_spline grounded eq_refl) as (e & H).
  rewrite H. f_equal.
  assert (E : snd (_model_evaluation flat_spline grounded)
              = Raise (IndexError "index is out of bounds")) by reflexivity.
  rewrite H in E. exact E.
Defined.

Lemma evaluation_mape_coasting :
  (exists rep self',
     _model_evaluation flat_spline coasting = (self', Ok rep)
     /\ energy coasting = [0; 20; 30]%float
     /\ mape rep = (nanmean [abs ((20 - 18) / 20); abs ((30 - 33) / 30)] * 100)%float
     /\ mape rep = 10%float)
  /\ (exists rep self',
       _model_evaluation flat_spline stalled = (self', Ok rep)
       /\ energy stalled = [0; 0; 0]%float
       /\ mape rep = nan)
  /\ (exists rep self',
       _model_evaluation flat_spline scenario = (self', Ok rep)
       /\ mape rep = 13.333333333333334%float).
Proof.
  split; [|split].
  - destruct (evaluation_mape flat_spline coasting [0; 20]%float 50%float)
      as (rep & self' & R & M & _); try reflexivity.
    exists rep, self'. rewrite M. repeat split; try reflexivity. exact R.
  - destruct (evaluation_mape flat_spline stalled [0; 0]%float 0%float)
      as (rep & self' & R & _ & Z); try reflexivity.
    exists rep, self'. repeat split; [exact R|]. apply Z. reflexivity.
  - destruct (evaluation_mape flat_spline scenario [10; 30]%float 60%float)
      as (rep & self' & R & M & _); try reflexivity.
    exists rep, self'. rewrite M. repeat split; try reflexivity. exact R.
Defined.

Lemma evaluation_outcome_scenario :
  (exists rep self',
     _model_evaluation flat_spline scenario = (self', Ok rep)
     /\ s_index (energy_pred_cum scenario) = [0; 1; 2]%Z
     /\ results self' = [One (ape rep)]
     /\ ape rep = 5%float
     /\ energy self' = [10; 20; 30]%float
     /\ energy_pred self' = energy_pred scenario)
  /\ s_index (energy_pred_cum grounded) = []
  /\ fst (_model_evaluation flat_spline grounded) = grounded.
Proof.
  assert (D : NoDup (s_index (energy_pred_cum scenario))).
  { repeat constructor; simpl; intuition discriminate. }
  pose proof (evaluation_outcome flat_spline scenario D) as H.
  pose proof (evaluation_outcome flat_spline grounded (NoDup_nil Z)) as G.
  split; [|split; [reflexivity|]].
  - assert (E : exists self' rep, _model_evaluation flat_spline scenario = (self', Ok rep))
      by (do 2 eexists; reflexivity).
    destruct E as (self' & rep & E). rewrite E in H.
    destruct H as (Hr & _ & He & _ & Hp & _).
    exists rep, self'. repeat split; try assumption; try reflexivity.
    assert (A : match snd (_model_evaluation flat_spline scenario) with
                | Ok r => ape r = 5%float
                | Raise _ => False
                end) by (vm_compute; reflexivity).
    rewrite E in A. exact A.
  - destruct (_model_evaluation flat_spline grounded) as [self' [rep|e]] eqn:E.
    + assert (A : is_ok (snd (_model_evaluation flat_spline grounded)) = false)
        by reflexivity.
      rewrite E in A. discriminate.
    + exact G.
Defined.

(** With the last label given twice the score stored is the series of the
    two percentage errors, and the evaluation raises once it has stored it
    and projected the charge. *)
Example evaluation_with_repeated_label :
  exists self',
    _model_evaluation flat_spline relabelled
    = (self', Raise (TypeError "unsupported format string passed to Series.__format__"))
    /\ results self'
       = [Several {| s_index := [2; 2]%Z; s_values := [50; 5]%float |}]
    /\ batt_state self'
       = Trajectory (joules2SoC flat_spline 1 (energy_pred_cum relabelled) 25 4500 22.2 1).
Proof. eexists. split; [reflexivity|]. split; reflexivity. Qed.

(** ** Flight selection *)

Section FlightSelectionFacts.
Variable V : Type.
Variable missing : V.
Variable same : V -> V -> bool.
Variable bool_dtype : string -> bool.

#[local] Abbreviation apply_conditions := (apply_conditions V missing bool_dtype).
#[local] Abbreviation get_flights_ids := (get_flights_ids V missing same bool_dtype).
#[local] Abbreviation meets := (meets V missing).
#[local] Abbreviation unique := (unique V same).
#[local] Abbreviation distinct := (distinct V same).
#[local] Abbreviation t_cell := (t_cell V missing).

Lemma filter_meets_cons (c : string) (f : V -> bool) (cs : list (string * (V -> bool)))
    (recs : list (list (string * V))) :
  filter (meets ((c, f) :: cs)) recs
  = filter (meets cs) (filter (fun r => f (t_cell c r)) recs).
Proof.
  induction recs as [|r t IH]; simpl; [reflexivity|].
  destruct (f (t_cell c r)); simpl; rewrite IH; reflexivity.
Qed.

(** The loop over a first group of conditions whose columns exist, on a
    table with records: it stops with nothing left when no record meets
    them all, and otherwise goes on to the later conditions with the
    records that do. *)
Lemma apply_conditions_app (cols : list string)
    (pre later : list (string * (V -> bool))) (recs : list (list (string * V))) :
  recs <> [] ->
  forallb (fun p => existsb (String.eqb (fst p)) cols) pre = true ->
  apply_conditions (pre ++ later) {| t_columns := cols; t_records := recs |}
  = match pre, filter (meets pre) recs with
    | _ :: _, [] => Ok {| t_columns := cols; t_records := [] |}
    | _, kept => apply_conditions later {| t_columns := cols; t_records := kept |}
    end.
Proof.
  revert recs. induction pre as [|[c f] pre IH]; intros recs N H.
  - cbn [app]. replace (filter (meets []) recs) with recs; [reflexivity|].
    clear. induction recs as [|r t IH]; simpl; [reflexivity|]. now rewrite <- IH.
  - cbn [forallb fst] in H. apply andb_prop in H as [Hc Hpre].
    cbn [app apply_conditions]. unfold t_has. cbn [t_columns]. rewrite Hc. cbn [negb].
    unfold t_where. cbn [t_records t_columns].
    destruct recs as [|r0 recs0] eqn:R; [contradiction|]. rewrite <- R in *.
    rewrite (select_filter (fun r => f (t_cell c r))).
    rewrite filter_meets_cons.
    assert (NC : cols <> []) by (destruct cols; [discriminate Hc|discriminate]).
    destruct (filter (fun r => f (t_cell c r)) recs) as [|k kept] eqn:F.
    + unfold t_empty. cbn [t_columns t_records]. destruct cols; [contradiction|].
      reflexivity.
    + unfold t_empty. cbn [t_columns t_records]. destruct cols as [|c0 cols]; [contradiction|].
      rewrite (IH (k :: kept)) by (discriminate || assumption).
      destruct pre; reflexivity.
Qed.

Lemma distinct_snoc (acc : list V) (v : V) :
  distinct acc -> Forall (fun x => same x v = false) acc -> distinct (acc ++ [v]).
Proof.
  induction acc as [|x t IH]; simpl; intros D F.
  - split; constructor.
  - destruct D as [Dx Dt]. inversion F as [|? ? Fx Ft]; subst. split.
    + apply Forall_app. split; [exact Dx|now constructor].
    + now apply IH.
Qed.

Lemma unique_distinct (l : list V) : distinct (unique l).
Proof.
  unfold unique.
  assert (G : forall acc, distinct acc ->
              distinct (fold_left (fun acc v => if existsb (fun x => same x v) acc
                                                then acc else acc ++ [v]) l acc)).
  { induction l as [|v l IH]; intros acc D; simpl; [exact D|].
    apply IH. destruct (existsb (fun x => same x v) acc) eqn:E; [exact D|].
    apply distinct_snoc; [exact D|].
    apply Forall_forall. intros x I.
    destruct (same x v) eqn:S; [|reflexivity].
    assert (existsb (fun x => same x v) acc = true)
      by (apply existsb_exists; eauto). congruence. }
  apply G. exact I.
Qed.

(** X14. On a parameter table with records, when every column named by a
    condition exists and the table has its [flight] column,
    [get_flights_ids] returns the flights of exactly the records that
    meet every condition, each once and in order of first appearance:
    leaving the loop as soon as nothing is left does not show.  No flight
    is returned twice. *)
Theorem selected_flights (data : Table V) (conditions : list (string * (V -> bool))) :
  t_records data <> [] ->
  forallb (fun p => t_has V (fst p) data) conditions = true ->
  t_has V "flight" data = true ->
  get_flights_ids data (Some conditions)
  = Ok (unique (map (t_cell "flight") (filter (meets conditions) (t_records data))))
  /\ distinct (unique (map (t_cell "flight") (filter (meets conditions) (t_records data)))).
Proof.
  intros N H F. split; [|apply unique_distinct].
  destruct data as [cols recs]. cbn [t_records] in *. unfold t_has in *.
  cbn [t_columns] in *. unfold get_flights_ids.
  destruct conditions as [|c cs].
  - cbn [bind]. unfold t_has. cbn [t_columns t_records]. rewrite F. do 3 f_equal.
    clear. induction recs as [|r t IH]; simpl; [reflexivity|]. now rewrite <- IH.
  - pose proof (apply_conditions_app cols (c :: cs) [] recs N H) as A.
    rewrite app_nil_r in A. rewrite A.
    destruct (filter (meets (c :: cs)) recs); cbn [apply_conditions bind];
      unfold t_has; cbn [t_columns t_records]; now rewrite F.
Qed.

(** X15. The check for an unknown column is made when its condition is
    reached, not before the selection starts.  With the earlier conditions
    on existing columns: if some record meets them all, a condition on a
    column the table does not have raises [ValueError]; if no record does,
    the loop has already been left and the result is the empty list, the
    unknown column going unnoticed. *)
Theorem unknown_filter_column (data : Table V)
    (pre later : list (string * (V -> bool))) (column : string) (condition : V -> bool) :
  t_records data <> [] ->
  forallb (fun p => t_has V (fst p) data) pre = true ->
  t_has V column data = false ->
  (filter (meets pre) (t_records data) <> [] ->
   get_flights_ids data (Some (pre ++ (column, condition) :: later))
   = Raise (ValueError ""))
  /\ (filter (meets pre) (t_records data) = [] -> t_has V "flight" data = true ->
      get_flights_ids data (Some (pre ++ (column, condition) :: later)) = Ok []).
Proof.
  intros N H U. destruct data as [cols recs]. cbn [t_records] in *. unfold t_has in *.
  cbn [t_columns] in *. unfold get_flights_ids.
  assert (A : match pre ++ (column, condition) :: later with
              | [] => Ok {| t_columns := cols; t_records := recs |}
              | c :: cs => apply_conditions (c :: cs) {| t_columns := cols; t_records := recs |}
              end
              = apply_conditions (pre ++ (column, condition) :: later)
                  {| t_columns := cols; t_records := recs |}).
  { destruct pre; reflexivity. }
  rewrite A, (apply_conditions_app cols pre _ recs N H). split.
  - intros K. destruct (filter (meets pre) recs) as [|k kept] eqn:E; [contradiction|].
    destruct pre; rewrite ?E; cbn [apply_conditions bind]; unfold t_has;
      cbn [t_columns]; rewrite U; reflexivity.
  - intros K F. destruct pre as [|p pre].
    + exfalso. apply N. rewrite <- K. clear.
      induction recs as [|r t IH]; simpl; [reflexivity|]. now rewrite <- IH.
    + rewrite K. cbn [bind]. unfold t_has. cbn [t_columns t_records]. now rewrite F.
Qed.

End FlightSelectionFacts.

Lemma selected_flights_parameters :
  get_flights_ids Z 0%Z Z.eqb (fun _ => false) parameters
    (Some [("payload"%string, fun x => (0 <=? x)%Z)])
  = Ok [1; 2; 3]%Z.
Proof.
  apply (proj1 (selected_flights Z 0%Z Z.eqb (fun _ => false) parameters
                  [("payload"%string, fun x => (0 <=? x)%Z)]
                  ltac:(discriminate) eq_refl eq_refl)).
Defined.

Lemma unknown_filter_column_parameters :
  get_flights_ids Z 0%Z Z.eqb (fun _ => false) parameters
    (Some [("payload"%string, fun x => (0 <=? x)%Z); ("route"%string, fun _ => true)])
  = Raise (ValueError "")
  /\ get_flights_ids Z 0%Z Z.eqb (fun _ => false) parameters
       (Some [("payload"%string, fun x => (x <? 0)%Z); ("route"%string, fun _ => true)])
     = Ok [].
Proof.
  split.
  - apply (proj1 (unknown_filter_column Z 0%Z Z.eqb (fun _ => false) parameters
                    [("payload"%string, fun x => (0 <=? x)%Z)] [] "route" (fun _ => true)
                    ltac:(discriminate) eq_refl eq_refl)).
    discriminate.
  - apply (proj2 (unknown_filter_column Z 0%Z Z.eqb (fun _ => false) parameters
                    [("payload"%string, fun x => (x <? 0)%Z)] [] "route" (fun _ => true)
                    ltac:(discriminate) eq_refl eq_refl)); reflexivity.
Defined.
